(** * ShoppingCartContext: the cart store of the shopping-cart provider

    A shallow embedding of [src/context/ShoppingCartContext.tsx].

    The provider holds two pieces of React state: the visibility flag
    [isOpen] and the array [cartItems] (kept by the [useLocalStorage]
    hook, whose setter is used here only through functional updates
    [setCartItems (currItems => ...)]).  Each exported operation is
    embedded as the pure updater it passes to the setter, followed by the
    state transformer obtained by running that updater on the current
    state.

    Conventions of the embedding:
    - a TypeScript [number] that holds an item id or a quantity is an
      integer-valued double, written as the integer of [Z] it denotes
      (the data model of the specification has integers only; the two
      zeros are both [0]); [===] on two such numbers is [Z.eqb];
    - arithmetic is that of binary64: the exact result is rounded to 53
      significant bits, ties to even ([round64]), so it is exact up to
      2^53 in magnitude and not beyond.  [item.quantity + 1] and
      [item.quantity - 1] are [round64 (q + 1)] and [round64 (q - 1)]:
      from a double they never overflow ([js_add_one_finite]).  The sum
      of [cartQuantity] can overflow, so its value is a [number], which
      also has the two infinities and NaN;
    - an array is a [list], in index order: [find], [filter], [map] and
      [reduce] are [find], [filter], [map] and [fold_left];
    - the result of [Array.prototype.find] is an [option]: [undefined] is
      [None];  [x?.quantity] is [option_map quantity];
    - [v || 0] on an optional number picks [0] when [v] is [undefined] or
      the falsy number [0], and [v] otherwise. *)

From Stdlib Require Import ZArith List Bool Lia.
Import ListNotations.

Open Scope Z_scope.

Module ShoppingCartContext.

(** ** Numbers *)

(** 2^53: up to this magnitude every integer is a double. *)
Definition two53 : Z := 9007199254740992.

(** [Number.MAX_VALUE], the largest finite double. *)
Definition max_double : Z := (2 ^ 53 - 1) * 2 ^ 971.

(** [n >= 0] rounded to a multiple of [2^e], to the nearest one, a tie
    going to the even multiple. *)
Definition round_at (e n : Z) : Z :=
  let m := n / 2 ^ e in
  let rest := n mod 2 ^ e in
  let half := 2 ^ (e - 1) in
  (if rest <? half then m
   else if half <? rest then m + 1
   else if Z.even m then m else m + 1) * 2 ^ e.

(** [n >= 0] rounded to 53 significant bits. *)
Definition round_magnitude (n : Z) : Z :=
  if n <? two53 then n else round_at (Z.log2 n - 52) n.

(** An integer rounded to 53 significant bits, ties to even: the double
    that an exact integer result becomes, as long as it does not
    overflow. *)
Definition round64 (z : Z) : Z :=
  if z <? 0 then - round_magnitude (- z) else round_magnitude z.

(** The values of an arithmetic expression over integer-valued doubles. *)
Inductive number : Type :=
| Num (z : Z)
| Infinity
| NegInfinity
| NaN.

(** The double for an exact integer result: rounded, and infinite when
    the rounded magnitude exceeds [max_double]. *)
Definition to_number (z : Z) : number :=
  let r := round64 z in
  if max_double <? r then Infinity
  else if r <? - max_double then NegInfinity
  else Num r.

(** [x + y] *)
Definition js_add (x y : number) : number :=
  match x, y with
  | NaN, _ | _, NaN => NaN
  | Infinity, NegInfinity | NegInfinity, Infinity => NaN
  | Infinity, _ | _, Infinity => Infinity
  | NegInfinity, _ | _, NegInfinity => NegInfinity
  | Num a, Num b => to_number (a + b)
  end.

(** ** Data *)

(** [type CartItem = { id: number; quantity: number }] *)
Record CartItem : Type := mkCartItem { id : Z; quantity : Z }.

(** The two [useState]-like cells of [ShoppingCartProvider]. *)
Record ProviderState : Type := mkProviderState {
  isOpen : bool;
  cartItems : list CartItem
}.

(** [useState(false)] and [useLocalStorage("shopping-cart", [])] with an
    empty slot. *)
Definition initialState : ProviderState :=
  {| isOpen := false; cartItems := [] |}.

(** ** JavaScript expressions used by the operations *)

(** [(item) => item.id === id] *)
Definition is_item (k : Z) (item : CartItem) : bool := id item =? k.

(** [(item) => item.id !== id] *)
Definition is_other (k : Z) (item : CartItem) : bool := negb (id item =? k).

(** [found?.quantity] *)
Definition quantity_of (found : option CartItem) : option Z :=
  option_map quantity found.

(** [found == null] *)
Definition is_nullish (found : option CartItem) : bool :=
  match found with
  | None => true
  | Some _ => false
  end.

(** [v === 1] for an optional number [v] *)
Definition is_one (v : option Z) : bool :=
  match v with
  | Some q => q =? 1
  | None => false
  end.

(** [v || 0] for an optional number [v] *)
Definition or_zero (v : option Z) : Z :=
  match v with
  | Some q => if q =? 0 then 0 else q
  | None => 0
  end.

(** ** Values derived from [cartItems] at each render *)

(** [cartItems.reduce((quantity, item) => item.quantity + quantity, 0)] *)
Definition cartQuantity (items : list CartItem) : number :=
  fold_left (fun acc item => js_add (Num (quantity item)) acc) items (Num 0).

(** [cartItems.find((item) => item.id === id)?.quantity || 0] *)
Definition getItemQuantity (items : list CartItem) (k : Z) : Z :=
  or_zero (quantity_of (find (is_item k) items)).

(** ** Updaters handed to [setCartItems] *)

(** [{ ...item, quantity: item.quantity + 1 }] under [item.id === id],
    [item] otherwise. *)
Definition bump (k : Z) (item : CartItem) : CartItem :=
  if id item =? k
  then {| id := id item; quantity := round64 (quantity item + 1) |}
  else item.

(** [{ ...item, quantity: item.quantity - 1 }] under [item.id === id],
    [item] otherwise. *)
Definition drop (k : Z) (item : CartItem) : CartItem :=
  if id item =? k
  then {| id := id item; quantity := round64 (quantity item - 1) |}
  else item.

(** The updater of [increaseCartQuantity]. *)
Definition increaseItems (k : Z) (currItems : list CartItem) : list CartItem :=
  if is_nullish (find (is_item k) currItems)
  then currItems ++ [ {| id := k; quantity := 1 |} ]
  else map (bump k) currItems.

(** The updater of [decreaseCartQuantity]. *)
Definition decreaseItems (k : Z) (currItems : list CartItem) : list CartItem :=
  if is_one (quantity_of (find (is_item k) currItems))
  then filter (is_other k) currItems
  else map (drop k) currItems.

(** The updater of [removeFromCart]. *)
Definition removeItems (k : Z) (currItems : list CartItem) : list CartItem :=
  filter (is_other k) currItems.

(** ** The operations of the context value, as state transformers *)

Definition setIsOpen (b : bool) (s : ProviderState) : ProviderState :=
  {| isOpen := b; cartItems := cartItems s |}.

Definition setCartItems (update : list CartItem -> list CartItem)
  (s : ProviderState) : ProviderState :=
  {| isOpen := isOpen s; cartItems := update (cartItems s) |}.

Definition openCart : ProviderState -> ProviderState := setIsOpen true.
Definition closeCart : ProviderState -> ProviderState := setIsOpen false.

Definition increaseCartQuantity (k : Z) : ProviderState -> ProviderState :=
  setCartItems (increaseItems k).

Definition decreaseCartQuantity (k : Z) : ProviderState -> ProviderState :=
  setCartItems (decreaseItems k).

Definition removeFromCart (k : Z) : ProviderState -> ProviderState :=
  setCartItems (removeItems k).

(** A call made by a consumer of the context.  The read-only members
    ([getItemQuantity], [cartQuantity], [cartItems]) change nothing and
    are not listed. *)
Inductive Call : Type :=
| OpenCart
| CloseCart
| IncreaseCartQuantity (k : Z)
| DecreaseCartQuantity (k : Z)
| RemoveFromCart (k : Z).

Definition perform (c : Call) : ProviderState -> ProviderState :=
  match c with
  | OpenCart => openCart
  | CloseCart => closeCart
  | IncreaseCartQuantity k => increaseCartQuantity k
  | DecreaseCartQuantity k => decreaseCartQuantity k
  | RemoveFromCart k => removeFromCart k
  end.

(** Calls are applied in the order in which they are made. *)
Definition run (calls : list Call) (s : ProviderState) : ProviderState :=
  fold_left (fun st c => perform c st) calls s.

(** ** Vocabulary of the specification *)

(** No two entries share an item id. *)
Definition unique_ids (items : list CartItem) : Prop :=
  NoDup (map id items).

(** Every entry has quantity at least one. *)
Definition positive_quantities (items : list CartItem) : Prop :=
  Forall (fun item => 1 <= quantity item) items.

Definition well_formed (items : list CartItem) : Prop :=
  unique_ids items /\ positive_quantities items.

(** The item id [k] has no entry. *)
Definition absent (k : Z) (items : list CartItem) : Prop :=
  ~ In k (map id items).

(** The sum of the quantities, written by recursion on the entries. *)
Fixpoint sum_quantities (items : list CartItem) : Z :=
  match items with
  | [] => 0
  | item :: rest => quantity item + sum_quantities rest
  end.

(** The sum of the magnitudes of the quantities. *)
Fixpoint sum_magnitudes (items : list CartItem) : Z :=
  match items with
  | [] => 0
  | item :: rest => Z.abs (quantity item) + sum_magnitudes rest
  end.

(** [at_least z n]: the value [n] is not below the integer [z]. *)
Definition at_least (z : Z) (n : number) : Prop :=
  match n with
  | Num r => z <= r
  | Infinity => True
  | NegInfinity | NaN => False
  end.

(** The number of entries for item id [k]. *)
Definition entries_for (k : Z) (items : list CartItem) : nat :=
  length (filter (is_item k) items).

(** [Subseq l' l]: [l'] is [l] with some elements left out, the others
    keeping their relative order. *)
Inductive Subseq {A : Type} : list A -> list A -> Prop :=
| Subseq_nil : Subseq [] []
| Subseq_skip : forall x l' l, Subseq l' l -> Subseq l' (x :: l)
| Subseq_keep : forall x l' l, Subseq l' l -> Subseq (x :: l') (x :: l).

(** The entries for item ids other than [k], in their order. *)
Definition others (k : Z) (items : list CartItem) : list CartItem :=
  filter (fun item => negb (Z.eqb (id item) k)) items.

(** [same_slot k old new]: at one index, the entry keeps its item id, and
    is left as it was unless it is an entry for [k]. *)
Definition same_slot (k : Z) (old new : CartItem) : Prop :=
  id new = id old /\ (id old <> k -> new = old).

(** The calls that go through [setCartItems], and those that go through
    [setIsOpen]. *)
Definition sets_items (c : Call) : bool :=
  match c with
  | OpenCart | CloseCart => false
  | IncreaseCartQuantity _ | DecreaseCartQuantity _ | RemoveFromCart _ => true
  end.

Definition sets_flag (c : Call) : bool := negb (sets_items c).

(** A counter for the item id [k] that never goes below 0: what one call
    does to it, and what a sequence of calls does to it. *)
Definition counter_step (k : Z) (q : Z) (c : Call) : Z :=
  match c with
  | OpenCart | CloseCart => q
  | IncreaseCartQuantity j => if j =? k then q + 1 else q
  | DecreaseCartQuantity j => if j =? k then Z.max 0 (q - 1) else q
  | RemoveFromCart j => if j =? k then 0 else q
  end.

Definition counter (k : Z) (calls : list Call) (q : Z) : Z :=
  fold_left (counter_step k) calls q.

(** The sum of the lookups of the item ids [ids] in [items]. *)
Definition sum_lookups (items : list CartItem) (ids : list Z) : Z :=
  fold_right (fun k acc => getItemQuantity items k + acc) 0 ids.

(** ** Facts about the rounding *)

Lemma two53_pow : two53 = 2 ^ 53.
Proof. reflexivity. Qed.

Lemma max_double_eq : max_double = (two53 - 1) * 2 ^ 971.
Proof. reflexivity. Qed.

Lemma max_double_pos : 0 < max_double.
Proof. reflexivity. Qed.

(** Integers up to 2^53 in magnitude are doubles. *)
Lemma round64_exact (z : Z) : - two53 <= z <= two53 -> round64 z = z.
Proof.
  intros H. unfold round64, round_magnitude.
  destruct (Z.ltb_spec z 0).
  - destruct (Z.ltb_spec (- z) two53); [lia|].
    assert (z = - two53) by lia. subst z. vm_compute. reflexivity.
  - destruct (Z.ltb_spec z two53); [lia|].
    assert (z = two53) by lia. subst z. vm_compute. reflexivity.
Qed.

Lemma round_at_lower (e n : Z) :
  0 <= e -> 0 <= n -> (n / 2 ^ e) * 2 ^ e <= round_at e n.
Proof.
  intros He Hn. unfold round_at.
  assert (0 < 2 ^ e) by (apply Z.pow_pos_nonneg; lia).
  destruct (_ <? _); [lia|]. destruct (_ <? _); [nia|].
  destruct (Z.even _); nia.
Qed.

Lemma round_at_upper (e n : Z) :
  0 <= e -> 0 <= n -> round_at e n <= (n / 2 ^ e + 1) * 2 ^ e.
Proof.
  intros He Hn. unfold round_at.
  assert (0 < 2 ^ e) by (apply Z.pow_pos_nonneg; lia).
  destruct (_ <? _); [nia|]. destruct (_ <? _); [nia|].
  destruct (Z.even _); nia.
Qed.

(** Rounding never takes a value from 2^53 or above to below 2^53. *)
Lemma round_magnitude_large (n : Z) :
  two53 <= n -> two53 <= round_magnitude n.
Proof.
  intros H. unfold round_magnitude.
  assert (Hz : 0 < n) by (unfold two53 in H; lia).
  destruct (Z.ltb_spec n two53); [lia|].
  assert (Hlog : 53 <= Z.log2 n).
  { change 53 with (Z.log2 two53). now apply Z.log2_le_mono. }
  set (e := Z.log2 n - 52). assert (He : 1 <= e) by (unfold e; lia).
  etransitivity; [|apply round_at_lower; lia].
  destruct (Z.log2_spec n Hz) as [Hlo _].
  replace (Z.log2 n) with (52 + e) in Hlo by (unfold e; lia).
  rewrite Z.pow_add_r in Hlo by lia.
  assert (Hpos : 0 < 2 ^ e) by (apply Z.pow_pos_nonneg; lia).
  assert (Hm : 2 ^ 52 <= n / 2 ^ e).
  { apply Z.div_le_lower_bound; lia. }
  assert (2 <= 2 ^ e).
  { change 2 with (2 ^ 1) at 1. apply Z.pow_le_mono_r; lia. }
  change two53 with (2 ^ 52 * 2). nia.
Qed.

Lemma round64_large (z : Z) : two53 <= z -> two53 <= round64 z.
Proof.
  intros H. unfold round64.
  destruct (Z.ltb_spec z 0); [unfold two53 in H; lia|].
  now apply round_magnitude_large.
Qed.

Lemma round64_ge_one (z : Z) : 1 <= z -> 1 <= round64 z.
Proof.
  intros H. destruct (Z.le_gt_cases z two53) as [Hs|Hl].
  - rewrite round64_exact; unfold two53 in *; lia.
  - pose proof (round64_large z) as Hr. unfold two53 in *. lia.
Qed.

Lemma round_magnitude_nonneg (n : Z) : 0 <= n -> 0 <= round_magnitude n.
Proof.
  intros Hn. destruct (Z.le_gt_cases two53 n) as [Hl|Hs].
  - pose proof (round_magnitude_large n Hl). unfold two53 in *. lia.
  - unfold round_magnitude. destruct (Z.ltb_spec n two53); lia.
Qed.

(** One past the largest double still rounds to a finite double. *)
Lemma round_magnitude_finite (n : Z) :
  0 <= n <= max_double + 1 -> round_magnitude n <= max_double.
Proof.
  intros [Hn Hmax]. unfold round_magnitude.
  assert (HP : 0 < 2 ^ 971) by (apply Z.pow_pos_nonneg; lia).
  assert (Hbig : two53 <= 2 ^ 971).
  { change two53 with (2 ^ 53). apply Z.pow_le_mono_r; lia. }
  destruct (Z.ltb_spec n two53) as [Hs|Hl].
  - rewrite max_double_eq. unfold two53 in *. nia.
  - assert (Hz : 0 < n) by (unfold two53 in Hl; lia).
    assert (Hlog : 53 <= Z.log2 n).
    { change 53 with (Z.log2 two53). now apply Z.log2_le_mono. }
    assert (Hlog' : Z.log2 n <= 1023).
    { apply Z.lt_succ_r. apply Z.log2_lt_pow2; [lia|].
      rewrite max_double_eq in Hmax. change (Z.succ 1023) with (53 + 971).
      rewrite Z.pow_add_r by lia. change (2 ^ 53) with two53.
      unfold two53 in *. nia. }
    set (e := Z.log2 n - 52) in *.
    assert (He : 1 <= e <= 971) by (unfold e; lia).
    destruct (Z.log2_spec n Hz) as [Hlo Hhi].
    replace (Z.succ (Z.log2 n)) with (53 + e) in Hhi by (unfold e; lia).
    rewrite Z.pow_add_r in Hhi by lia.
    assert (Hpos : 0 < 2 ^ e) by (apply Z.pow_pos_nonneg; lia).
    assert (Hm : n / 2 ^ e < 2 ^ 53) by (apply Z.div_lt_upper_bound; lia).
    assert (Hhalf : 2 ^ 971 = 2 * 2 ^ 970)
      by (change 971 with (1 + 970); now rewrite Z.pow_add_r by lia).
    destruct (Z.eq_dec e 971) as [He971|Hne].
    + rewrite He971 in *. clear He971.
      unfold round_at.
      pose proof (Z.div_mod n (2 ^ 971) ltac:(lia)) as Hdm.
      pose proof (Z.mod_pos_bound n (2 ^ 971) HP) as Hmod.
      change (971 - 1) with 970.
      assert (H970 : 2 <= 2 ^ 970).
      { change 2 with (2 ^ 1) at 1. apply Z.pow_le_mono_r; lia. }
      rewrite max_double_eq in *. change (2 ^ 53) with two53 in *.
      set (m := n / 2 ^ 971) in *. set (r := n mod 2 ^ 971) in *.
      set (P := 2 ^ 971) in *. set (Q := 2 ^ 970) in *.
      assert (Hcase : m <= two53 - 2 \/ (m = two53 - 1 /\ r <= 1)) by nia.
      destruct Hcase as [Hc|[Hc Hr]].
      * destruct (_ <? _); [nia|]. destruct (_ <? _); [nia|].
        destruct (Z.even _); nia.
      * destruct (Z.ltb_spec r Q); [nia|lia].
    + etransitivity; [apply round_at_upper; lia|].
      assert (Hle : 2 ^ e <= 2 ^ 970) by (apply Z.pow_le_mono_r; lia).
      rewrite max_double_eq. change (2 ^ 53) with two53 in *.
      set (m := n / 2 ^ e) in *. set (P := 2 ^ 971) in *.
      set (Q := 2 ^ 970) in *. set (E := 2 ^ e) in *.
      unfold two53 in *. nia.
Qed.

Lemma round64_finite (z : Z) :
  - max_double - 1 <= z <= max_double + 1 ->
  - max_double <= round64 z <= max_double.
Proof.
  intros H. pose proof max_double_pos as Hpos. unfold round64.
  destruct (Z.ltb_spec z 0).
  - pose proof (round_magnitude_finite (- z) ltac:(lia)).
    pose proof (round_magnitude_nonneg (- z) ltac:(lia)). lia.
  - pose proof (round_magnitude_finite z ltac:(lia)).
    pose proof (round_magnitude_nonneg z ltac:(lia)). lia.
Qed.

(** From a quantity that is a finite double, [q + 1] and [q - 1] are
    finite: the rounded integer is the whole result. *)
Lemma js_add_one_finite (q : Z) :
  - max_double <= q <= max_double ->
  js_add (Num q) (Num 1) = Num (round64 (q + 1))
  /\ js_add (Num q) (Num (-1)) = Num (round64 (q - 1)).
Proof.
  intros H. unfold js_add, to_number.
  pose proof (round64_finite (q + 1) ltac:(lia)) as Hup.
  pose proof (round64_finite (q + -1) ltac:(lia)) as Hdown.
  split.
  - destruct (Z.ltb_spec max_double (round64 (q + 1))); [lia|].
    destruct (Z.ltb_spec (round64 (q + 1)) (- max_double)); [lia|].
    reflexivity.
  - destruct (Z.ltb_spec max_double (round64 (q + -1))); [lia|].
    destruct (Z.ltb_spec (round64 (q + -1)) (- max_double)); [lia|].
    reflexivity.
Qed.

(** A sum that stays within 2^53 in magnitude is exact. *)
Lemma js_add_exact (a b : Z) :
  - two53 <= a + b <= two53 -> js_add (Num a) (Num b) = Num (a + b).
Proof.
  intros H. unfold js_add, to_number. rewrite round64_exact by assumption.
  assert (Hbig : two53 <= max_double).
  { rewrite max_double_eq.
    assert (2 <= 2 ^ 971)
      by (change 2 with (2 ^ 1) at 1; apply Z.pow_le_mono_r; lia).
    unfold two53 in *. nia. }
  destruct (Z.ltb_spec max_double (a + b)); [lia|].
  destruct (Z.ltb_spec (a + b) (- max_double)); [lia|].
  reflexivity.
Qed.

(** ** Basic facts about the predicates and updaters *)

Lemma is_item_true (k : Z) (item : CartItem) :
  is_item k item = true <-> id item = k.
Proof. unfold is_item. apply Z.eqb_eq. Qed.

Lemma is_item_false (k : Z) (item : CartItem) :
  is_item k item = false <-> id item <> k.
Proof. unfold is_item. apply Z.eqb_neq. Qed.

Lemma is_other_negb (k : Z) (item : CartItem) :
  is_other k item = negb (is_item k item).
Proof. reflexivity. Qed.

Lemma bump_id (k : Z) (item : CartItem) : id (bump k item) = id item.
Proof. unfold bump. destruct (id item =? k); reflexivity. Qed.

Lemma drop_id (k : Z) (item : CartItem) : id (drop k item) = id item.
Proof. unfold drop. destruct (id item =? k); reflexivity. Qed.

Lemma bump_other (k : Z) (item : CartItem) :
  id item <> k -> bump k item = item.
Proof.
  intros Hne. unfold bump.
  destruct (Z.eqb_spec (id item) k); [contradiction | reflexivity].
Qed.

Lemma drop_other (k : Z) (item : CartItem) :
  id item <> k -> drop k item = item.
Proof.
  intros Hne. unfold drop.
  destruct (Z.eqb_spec (id item) k); [contradiction | reflexivity].
Qed.

Lemma bump_item (item : CartItem) :
  bump (id item) item
  = {| id := id item; quantity := round64 (quantity item + 1) |}.
Proof. unfold bump. rewrite Z.eqb_refl. reflexivity. Qed.

Lemma drop_item (item : CartItem) :
  drop (id item) item
  = {| id := id item; quantity := round64 (quantity item - 1) |}.
Proof. unfold drop. rewrite Z.eqb_refl. reflexivity. Qed.

(** ** Absence of an item id *)

Lemma absent_nil (k : Z) : absent k [].
Proof. intros []. Qed.

Lemma absent_cons (k : Z) (item : CartItem) (items : list CartItem) :
  absent k (item :: items) <-> id item <> k /\ absent k items.
Proof. unfold absent. simpl. tauto. Qed.

Lemma absent_app (k : Z) (l1 l2 : list CartItem) :
  absent k (l1 ++ l2) <-> absent k l1 /\ absent k l2.
Proof. unfold absent. rewrite map_app, in_app_iff. tauto. Qed.

Lemma absent_not_in (k : Z) (items : list CartItem) (item : CartItem) :
  absent k items -> In item items -> id item <> k.
Proof.
  intros Habs Hin Heq. apply Habs. subst k. now apply in_map.
Qed.

Lemma find_absent (k : Z) (items : list CartItem) :
  find (is_item k) items = None <-> absent k items.
Proof.
  induction items as [|item items IH]; simpl.
  - split; [intros _; apply absent_nil | reflexivity].
  - rewrite absent_cons, <- IH. unfold is_item.
    destruct (Z.eqb_spec (id item) k); split; intros H;
      try discriminate; tauto.
Qed.

Lemma find_first (k : Z) (pre post : list CartItem) (item : CartItem) :
  absent k pre -> id item = k ->
  find (is_item k) (pre ++ item :: post) = Some item.
Proof.
  intros Hpre Hid. induction pre as [|p pre IH]; simpl.
  - apply is_item_true in Hid. now rewrite Hid.
  - apply absent_cons in Hpre as [Hp Hpre].
    apply is_item_false in Hp. rewrite Hp. now apply IH.
Qed.

Lemma find_split (k : Z) (items : list CartItem) (item : CartItem) :
  find (is_item k) items = Some item ->
  exists pre post,
    items = pre ++ item :: post /\ absent k pre /\ id item = k.
Proof.
  induction items as [|x items IH]; simpl; [discriminate|].
  destruct (is_item k x) eqn:Hx.
  - intros [= ->]. exists [], items. repeat split.
    + apply absent_nil.
    + now apply is_item_true.
  - intros Hfind. destruct (IH Hfind) as (pre & post & -> & Hpre & Hid).
    exists (x :: pre), post. repeat split; trivial.
    apply absent_cons. split; [now apply is_item_false | exact Hpre].
Qed.

Lemma map_bump_absent (k : Z) (items : list CartItem) :
  absent k items -> map (bump k) items = items.
Proof.
  intros Habs. rewrite <- (map_id items) at 2. apply map_ext_in.
  intros item Hin. apply bump_other. eapply absent_not_in; eassumption.
Qed.

Lemma map_drop_absent (k : Z) (items : list CartItem) :
  absent k items -> map (drop k) items = items.
Proof.
  intros Habs. rewrite <- (map_id items) at 2. apply map_ext_in.
  intros item Hin. apply drop_other. eapply absent_not_in; eassumption.
Qed.

Lemma filter_other_absent (k : Z) (items : list CartItem) :
  absent k items -> filter (is_other k) items = items.
Proof.
  intros Habs. apply forallb_filter_id. apply forallb_forall.
  intros item Hin. rewrite is_other_negb.
  apply negb_true_iff, is_item_false.
  eapply absent_not_in; eassumption.
Qed.

Lemma filter_item_absent (k : Z) (items : list CartItem) :
  absent k items -> filter (is_item k) items = [].
Proof.
  induction items as [|item items IH]; simpl; [reflexivity|].
  intros [Hne Habs]%absent_cons. apply is_item_false in Hne.
  rewrite Hne. now apply IH.
Qed.

Lemma map_id_bump (k : Z) (items : list CartItem) :
  map id (map (bump k) items) = map id items.
Proof. rewrite map_map. apply map_ext. intros. apply bump_id. Qed.

Lemma map_id_drop (k : Z) (items : list CartItem) :
  map id (map (drop k) items) = map id items.
Proof. rewrite map_map. apply map_ext. intros. apply drop_id. Qed.

(** ** What uniqueness of ids says, index by index *)

Lemma unique_ids_pairwise (items : list CartItem) :
  unique_ids items <->
  (forall (i j : nat) (a b : CartItem),
      nth_error items i = Some a -> nth_error items j = Some b ->
      id a = id b -> i = j).
Proof.
  unfold unique_ids. rewrite NoDup_nth_error. split.
  - intros H i j a b Ha Hb Hid. apply H.
    + rewrite length_map. apply nth_error_Some. rewrite Ha. discriminate.
    + rewrite !nth_error_map, Ha, Hb. simpl. now rewrite Hid.
  - intros H i j Hi Heq. rewrite length_map in Hi.
    rewrite !nth_error_map in Heq.
    destruct (nth_error items i) as [a|] eqn:Ha.
    + destruct (nth_error items j) as [b|] eqn:Hb; simpl in Heq;
        [|discriminate].
      injection Heq as Heq. exact (H i j a b Ha Hb Heq).
    + apply nth_error_None in Ha. apply Nat.lt_nge in Hi. contradiction.
Qed.

(** ** An entry picked out of a list with unique ids *)

Lemma unique_ids_split (pre post : list CartItem) (item : CartItem) :
  unique_ids (pre ++ item :: post) ->
  absent (id item) pre /\ absent (id item) post.
Proof.
  unfold unique_ids, absent. rewrite map_app. simpl.
  intros Hnd. apply NoDup_remove_2 in Hnd.
  rewrite in_app_iff in Hnd. tauto.
Qed.

Lemma unique_ids_find (items : list CartItem) (item : CartItem) :
  unique_ids items -> In item items ->
  find (is_item (id item)) items = Some item.
Proof.
  intros Huniq Hin. destruct (in_split _ _ Hin) as (pre & post & ->).
  apply unique_ids_split in Huniq as [Hpre _].
  now apply find_first.
Qed.

Lemma map_bump_split (k : Z) (pre post : list CartItem) (item : CartItem) :
  absent k pre -> absent k post -> id item = k ->
  map (bump k) (pre ++ item :: post)
  = pre ++ {| id := k; quantity := round64 (quantity item + 1) |} :: post.
Proof.
  intros Hpre Hpost <-. rewrite map_app. simpl.
  rewrite !map_bump_absent by assumption. now rewrite bump_item.
Qed.

Lemma map_drop_split (k : Z) (pre post : list CartItem) (item : CartItem) :
  absent k pre -> absent k post -> id item = k ->
  map (drop k) (pre ++ item :: post)
  = pre ++ {| id := k; quantity := round64 (quantity item - 1) |} :: post.
Proof.
  intros Hpre Hpost <-. rewrite map_app. simpl.
  rewrite !map_drop_absent by assumption. now rewrite drop_item.
Qed.

Lemma filter_other_split (k : Z) (pre post : list CartItem) (item : CartItem) :
  absent k pre -> absent k post -> id item = k ->
  filter (is_other k) (pre ++ item :: post) = pre ++ post.
Proof.
  intros Hpre Hpost Hid. rewrite filter_app. simpl.
  rewrite is_other_negb. apply is_item_true in Hid. rewrite Hid. simpl.
  now rewrite !filter_other_absent.
Qed.

(** ** The updaters, case by case *)

Lemma increaseItems_absent (k : Z) (items : list CartItem) :
  absent k items ->
  increaseItems k items = items ++ [ {| id := k; quantity := 1 |} ].
Proof.
  intros Habs. unfold increaseItems.
  apply find_absent in Habs. now rewrite Habs.
Qed.

Lemma increaseItems_present (k : Z) (items : list CartItem) :
  ~ absent k items -> increaseItems k items = map (bump k) items.
Proof.
  intros Hpres. unfold increaseItems.
  destruct (find (is_item k) items) eqn:Hfind; [reflexivity|].
  apply find_absent in Hfind. contradiction.
Qed.

Lemma decreaseItems_absent (k : Z) (items : list CartItem) :
  absent k items -> decreaseItems k items = items.
Proof.
  intros Habs. unfold decreaseItems.
  pose proof Habs as Hfind. apply find_absent in Hfind. rewrite Hfind.
  simpl. now apply map_drop_absent.
Qed.

Lemma decreaseItems_first_one
  (k : Z) (pre post : list CartItem) (item : CartItem) :
  absent k pre -> id item = k -> quantity item = 1 ->
  decreaseItems k (pre ++ item :: post)
  = filter (is_other k) (pre ++ item :: post).
Proof.
  intros Hpre Hid Hq. unfold decreaseItems.
  rewrite (find_first k pre post item Hpre Hid). simpl.
  now rewrite Hq.
Qed.

Lemma decreaseItems_first_not_one
  (k : Z) (pre post : list CartItem) (item : CartItem) :
  absent k pre -> id item = k -> quantity item <> 1 ->
  decreaseItems k (pre ++ item :: post) = map (drop k) (pre ++ item :: post).
Proof.
  intros Hpre Hid Hq. unfold decreaseItems.
  rewrite (find_first k pre post item Hpre Hid). simpl.
  apply Z.eqb_neq in Hq. now rewrite Hq.
Qed.

Lemma absent_dec (k : Z) (items : list CartItem) :
  {absent k items} + {~ absent k items}.
Proof.
  unfold absent.
  destruct (in_dec Z.eq_dec k (map id items)); [right | left]; tauto.
Defined.

Lemma present_split (k : Z) (items : list CartItem) :
  ~ absent k items ->
  exists pre item post,
    items = pre ++ item :: post /\ absent k pre /\ id item = k.
Proof.
  intros Hpres. destruct (find (is_item k) items) as [item|] eqn:Hfind.
  - destruct (find_split _ _ _ Hfind) as (pre & post & H).
    now exists pre, item, post.
  - apply find_absent in Hfind. contradiction.
Qed.

(** ** Preservation of the two invariants by the updaters *)

Section Invariants.

Variable k : Z.
Variable items : list CartItem.

Lemma unique_ids_filter (p : CartItem -> bool) :
  unique_ids items -> unique_ids (filter p items).
Proof.
  unfold unique_ids. clear k.
  induction items as [|item rest IH]; simpl; intros Hnd; [constructor|].
  apply NoDup_cons_iff in Hnd as [Hnin Hnd].
  destruct (p item); simpl; [|now apply IH].
  constructor; [|now apply IH].
  intros Hin. apply Hnin. clear - Hin.
  rewrite in_map_iff in *. destruct Hin as (x & Hid & Hin).
  apply filter_In in Hin as [Hin _]. now exists x.
Qed.

Lemma unique_ids_increaseItems :
  unique_ids items -> unique_ids (increaseItems k items).
Proof.
  intros Huniq. destruct (absent_dec k items) as [Habs|Hpres].
  - rewrite increaseItems_absent by assumption.
    unfold unique_ids. rewrite map_app. simpl.
    apply NoDup_app; [exact Huniq | repeat constructor; intros [] | ].
    intros a Ha [<-|[]]. now apply Habs.
  - rewrite increaseItems_present by assumption.
    unfold unique_ids. now rewrite map_id_bump.
Qed.

Lemma unique_ids_decreaseItems :
  unique_ids items -> unique_ids (decreaseItems k items).
Proof.
  intros Huniq. unfold decreaseItems.
  destruct (is_one _).
  - now apply unique_ids_filter.
  - unfold unique_ids. now rewrite map_id_drop.
Qed.

Lemma unique_ids_removeItems :
  unique_ids items -> unique_ids (removeItems k items).
Proof. apply unique_ids_filter. Qed.

Lemma positive_increaseItems :
  positive_quantities items -> positive_quantities (increaseItems k items).
Proof.
  unfold positive_quantities, increaseItems. intros Hpos.
  destruct (is_nullish _).
  - apply Forall_app. split; [exact Hpos|]. repeat constructor. simpl. lia.
  - apply Forall_map. revert Hpos. apply Forall_impl.
    intros item Hq. unfold bump. destruct (id item =? k); simpl; [|lia].
    apply round64_ge_one. lia.
Qed.

Lemma positive_filter (p : CartItem -> bool) :
  positive_quantities items -> positive_quantities (filter p items).
Proof.
  unfold positive_quantities. rewrite !Forall_forall.
  intros Hpos item Hin. apply filter_In in Hin as [Hin _]. now apply Hpos.
Qed.

Lemma positive_removeItems :
  positive_quantities items -> positive_quantities (removeItems k items).
Proof. apply positive_filter. Qed.

(** Decreasing keeps the quantities positive only because the entry that
    [find] inspects is the single entry for [k]. *)
Lemma positive_decreaseItems :
  well_formed items -> positive_quantities (decreaseItems k items).
Proof.
  intros [Huniq Hpos]. destruct (absent_dec k items) as [Habs|Hpres].
  - now rewrite decreaseItems_absent.
  - destruct (present_split _ _ Hpres) as (pre & item & post & -> & Hpre & Hid).
    pose proof (unique_ids_split _ _ _ Huniq) as [_ Hpost].
    rewrite Hid in Hpost.
    unfold positive_quantities in *.
    apply Forall_app in Hpos as [Hpos_pre Hpos_item].
    apply Forall_cons_iff in Hpos_item as [Hq Hpos_post].
    destruct (Z.eq_dec (quantity item) 1) as [Hone|Hmore].
    + rewrite decreaseItems_first_one, filter_other_split by assumption.
      apply Forall_app. now split.
    + rewrite decreaseItems_first_not_one, map_drop_split by assumption.
      apply Forall_app. split; [exact Hpos_pre|].
      constructor; [simpl; apply round64_ge_one; lia | exact Hpos_post].
Qed.

End Invariants.

Lemma well_formed_nil : well_formed [].
Proof. split; constructor. Qed.

Lemma well_formed_perform (c : Call) (s : ProviderState) :
  well_formed (cartItems s) -> well_formed (cartItems (perform c s)).
Proof.
  intros Hwf. destruct c as [| |k|k|k]; simpl; trivial;
    destruct Hwf as [Huniq Hpos]; split.
  - now apply unique_ids_increaseItems.
  - now apply positive_increaseItems.
  - now apply unique_ids_decreaseItems.
  - apply positive_decreaseItems. now split.
  - now apply unique_ids_removeItems.
  - now apply positive_removeItems.
Qed.

Lemma unique_ids_perform (c : Call) (s : ProviderState) :
  unique_ids (cartItems s) -> unique_ids (cartItems (perform c s)).
Proof.
  intros Huniq. destruct c as [| |k|k|k]; simpl; trivial.
  - now apply unique_ids_increaseItems.
  - now apply unique_ids_decreaseItems.
  - now apply unique_ids_removeItems.
Qed.

Lemma run_snoc (calls : list Call) (c : Call) (s : ProviderState) :
  run (calls ++ [c]) s = perform c (run calls s).
Proof. unfold run. now rewrite fold_left_app. Qed.

Lemma well_formed_run (calls : list Call) (s : ProviderState) :
  well_formed (cartItems s) -> well_formed (cartItems (run calls s)).
Proof.
  revert s. induction calls as [|c calls IH]; intros s Hwf; simpl.
  - exact Hwf.
  - apply IH. now apply well_formed_perform.
Qed.

Lemma unique_ids_run (calls : list Call) (s : ProviderState) :
  unique_ids (cartItems s) -> unique_ids (cartItems (run calls s)).
Proof.
  revert s. induction calls as [|c calls IH]; intros s Huniq; simpl.
  - exact Huniq.
  - apply IH. now apply unique_ids_perform.
Qed.

Lemma increaseItems_first
  (k : Z) (pre post : list CartItem) (item : CartItem) :
  absent k pre -> id item = k ->
  increaseItems k (pre ++ item :: post) = map (bump k) (pre ++ item :: post).
Proof.
  intros Hpre Hid. unfold increaseItems.
  now rewrite (find_first k pre post item Hpre Hid).
Qed.

(** Closing goals about explicit carts. *)
Ltac explicit_cart :=
  unfold well_formed, unique_ids, positive_quantities, absent; simpl;
  repeat split; repeat constructor; simpl; intuition (try lia; try congruence).

(** * The uniqueness invariant *)

(** C1. If no two entries of the current list share an item id, then
    after any of the calls ([increaseCartQuantity], [decreaseCartQuantity],
    [removeFromCart], and [openCart] / [closeCart], which leave the list
    alone) no two entries share an item id; hence after every sequence of
    calls from the initial, empty cart the list never holds two entries
    with the same item id. *)
Theorem uniqueness_invariant :
  (forall (c : Call) (s : ProviderState),
      unique_ids (cartItems s) -> unique_ids (cartItems (perform c s)))
  /\ (forall calls : list Call,
        unique_ids (cartItems (run calls initialState))).
Proof.
  split.
  - exact unique_ids_perform.
  - intros calls. apply unique_ids_run. constructor.
Qed.

Lemma uniqueness_invariant_witness :
  unique_ids [ mkCartItem 5 2; mkCartItem 7 1 ]
  /\ unique_ids
       (cartItems
          (perform (IncreaseCartQuantity 9)
             (mkProviderState false [ mkCartItem 5 2; mkCartItem 7 1 ]))).
Proof.
  assert (H : unique_ids [ mkCartItem 5 2; mkCartItem 7 1 ])
    by explicit_cart.
  split; [exact H|].
  exact (proj1 uniqueness_invariant (IncreaseCartQuantity 9)
           (mkProviderState false [ mkCartItem 5 2; mkCartItem 7 1 ]) H).
Defined.

(** * The quantity invariant *)

(** C2. After every sequence of calls from the initial, empty cart,
    every entry of the list has quantity at least 1; in particular no
    call made in such a state leaves an entry with quantity 0 or with a
    negative quantity. *)
Theorem quantity_invariant :
  forall calls : list Call,
    positive_quantities (cartItems (run calls initialState))
    /\ (forall c : Call,
          positive_quantities
            (cartItems (perform c (run calls initialState))))
    /\ (forall item : CartItem,
          In item (cartItems (run calls initialState)) ->
          quantity item <> 0 /\ ~ quantity item < 0).
Proof.
  intros calls.
  assert (Hwf : well_formed (cartItems (run calls initialState)))
    by (apply well_formed_run, well_formed_nil).
  split; [exact (proj2 Hwf)|]. split.
  - intros c. exact (proj2 (well_formed_perform c _ Hwf)).
  - intros item Hin. destruct Hwf as [_ Hpos].
    unfold positive_quantities in Hpos. rewrite Forall_forall in Hpos.
    specialize (Hpos item Hin). lia.
Qed.

Lemma quantity_invariant_witness :
  In (mkCartItem 5 2)
    (cartItems
       (run [IncreaseCartQuantity 5; IncreaseCartQuantity 5] initialState))
  /\ quantity (mkCartItem 5 2) <> 0 /\ ~ quantity (mkCartItem 5 2) < 0.
Proof.
  assert (Hin : In (mkCartItem 5 2)
                  (cartItems
                     (run [IncreaseCartQuantity 5; IncreaseCartQuantity 5]
                        initialState)))
    by (vm_compute; left; reflexivity).
  split; [exact Hin|].
  exact (proj2 (proj2 (quantity_invariant
                         [IncreaseCartQuantity 5; IncreaseCartQuantity 5]))
           (mkCartItem 5 2) Hin).
Defined.

(** * Postconditions of the updaters *)

(** Against C3 as worded for every quantity: at 2^53 the increase leaves
    the quantity where it is, since 2^53 + 1 is not a double and rounds
    back to 2^53. *)
Lemma increase_rounds_at_two53 :
  unique_ids [ mkCartItem 1 two53 ]
  /\ increaseItems 1 [ mkCartItem 1 two53 ] = [ mkCartItem 1 two53 ]
  /\ increaseItems 1 [ mkCartItem 1 two53 ] <> [ mkCartItem 1 (two53 + 1) ].
Proof.
  split; [repeat constructor; simpl; tauto|].
  split; [vm_compute; reflexivity | vm_compute; discriminate].
Qed.

(** C3, as amended.  On a list with unique item ids, after increasing
    [k] there is exactly one entry for [k]: if the list had an entry for
    [k], that entry is replaced, where it stands, by one whose quantity
    is the double nearest to its quantity plus 1, which is its quantity
    plus 1 whenever the quantity lies from -2^53 to 2^53 - 1; if it had
    none, a new entry with quantity 1 is appended. *)
Theorem increase_postcondition :
  forall (items : list CartItem) (k : Z),
    unique_ids items ->
    entries_for k (increaseItems k items) = 1%nat
    /\ (forall pre item post,
          items = pre ++ item :: post -> id item = k ->
          increaseItems k items
          = pre ++ {| id := k; quantity := round64 (quantity item + 1) |}
                :: post
          /\ (- two53 <= quantity item < two53 ->
              increaseItems k items
              = pre ++ {| id := k; quantity := quantity item + 1 |} :: post))
    /\ (absent k items ->
        increaseItems k items = items ++ [ {| id := k; quantity := 1 |} ]).
Proof.
  intros items k Huniq.
  assert (Hsplit : forall pre item post,
             items = pre ++ item :: post -> id item = k ->
             increaseItems k items
             = pre ++ {| id := k; quantity := round64 (quantity item + 1) |}
                   :: post).
  { intros pre item post -> Hid.
    pose proof (unique_ids_split _ _ _ Huniq) as [Hpre Hpost].
    rewrite Hid in Hpre, Hpost.
    rewrite increaseItems_first by assumption.
    now apply map_bump_split. }
  split; [|split; [|apply increaseItems_absent]].
  - unfold entries_for. destruct (absent_dec k items) as [Habs|Hpres].
    + rewrite increaseItems_absent, filter_app by assumption.
      rewrite filter_item_absent by assumption. simpl.
      unfold is_item. simpl. now rewrite Z.eqb_refl.
    + destruct (present_split _ _ Hpres)
        as (pre & item & post & Heq & Hpre & Hid).
      rewrite (Hsplit pre item post Heq Hid). subst items.
      pose proof (unique_ids_split _ _ _ Huniq) as [_ Hpost].
      rewrite Hid in Hpost.
      rewrite filter_app. simpl. unfold is_item at 2. simpl.
      rewrite Z.eqb_refl, !filter_item_absent by assumption. reflexivity.
  - intros pre item post Heq Hid. split; [now apply Hsplit|].
    intros Hrange. rewrite (Hsplit pre item post Heq Hid).
    rewrite round64_exact by lia. reflexivity.
Qed.

Lemma increase_postcondition_witness :
  unique_ids [ mkCartItem 5 1; mkCartItem 7 3 ]
  /\ entries_for 7 (increaseItems 7 [ mkCartItem 5 1; mkCartItem 7 3 ]) = 1%nat
  /\ increaseItems 7 [ mkCartItem 5 1; mkCartItem 7 3 ]
     = [ mkCartItem 5 1 ] ++ mkCartItem 7 (3 + 1) :: []
  /\ absent 9 [ mkCartItem 5 1; mkCartItem 7 3 ]
  /\ increaseItems 9 [ mkCartItem 5 1; mkCartItem 7 3 ]
     = [ mkCartItem 5 1; mkCartItem 7 3 ] ++ [ mkCartItem 9 1 ].
Proof.
  assert (H : unique_ids [ mkCartItem 5 1; mkCartItem 7 3 ])
    by explicit_cart.
  assert (Habs : absent 9 [ mkCartItem 5 1; mkCartItem 7 3 ])
    by explicit_cart.
  destruct (increase_postcondition [ mkCartItem 5 1; mkCartItem 7 3 ] 7 H)
    as (Hone & Hsplit & _).
  destruct (increase_postcondition [ mkCartItem 5 1; mkCartItem 7 3 ] 9 H)
    as (_ & _ & Hnew).
  split; [exact H|]. split; [exact Hone|].
  split.
  - apply (Hsplit [ mkCartItem 5 1 ] (mkCartItem 7 3) [] eq_refl eq_refl).
    unfold two53. simpl. lia.
  - split; [exact Habs | exact (Hnew Habs)].
Defined.

(** Against C4 as worded for every quantity above 1: at 2^53 + 2 the
    decrease takes 2 off, since 2^53 + 1 is not a double and rounds to
    2^53. *)
Lemma decrease_rounds_above_two53 :
  well_formed [ mkCartItem 1 (two53 + 2) ]
  /\ 1 < quantity (mkCartItem 1 (two53 + 2))
  /\ decreaseItems 1 [ mkCartItem 1 (two53 + 2) ] = [ mkCartItem 1 two53 ]
  /\ decreaseItems 1 [ mkCartItem 1 (two53 + 2) ]
     <> [ mkCartItem 1 (two53 + 2 - 1) ].
Proof.
  split; [split; repeat constructor; simpl; [tauto | discriminate]|].
  split; [reflexivity|].
  split; [vm_compute; reflexivity | vm_compute; discriminate].
Qed.

(** C4, as amended.  On a list with unique item ids and positive
    quantities, decreasing [k] deletes the entry for [k] when its
    quantity is exactly 1; when its quantity is greater than 1 it
    replaces it, where it stands, by one whose quantity is the double
    nearest to its quantity minus 1, which is its quantity minus 1
    whenever the quantity is at most 2^53; and it returns the list as it
    was when there is no entry for [k] (so no entry with a negative
    quantity appears). *)
Theorem decrease_behaviour :
  forall (items : list CartItem) (k : Z),
    well_formed items ->
    (forall pre item post,
        items = pre ++ item :: post -> id item = k ->
        (quantity item = 1 ->
         decreaseItems k items = pre ++ post
         /\ absent k (decreaseItems k items))
        /\ (1 < quantity item ->
            decreaseItems k items
            = pre ++ {| id := k; quantity := round64 (quantity item - 1) |}
                  :: post
            /\ 1 <= round64 (quantity item - 1)
            /\ (quantity item <= two53 ->
                decreaseItems k items
                = pre ++ {| id := k; quantity := quantity item - 1 |}
                      :: post)))
    /\ (absent k items -> decreaseItems k items = items).
Proof.
  intros items k [Huniq Hpos]. split; [|apply decreaseItems_absent].
  intros pre item post -> Hid.
  pose proof (unique_ids_split _ _ _ Huniq) as [Hpre Hpost].
  rewrite Hid in Hpre, Hpost. split.
  - intros Hone.
    rewrite decreaseItems_first_one, filter_other_split by assumption.
    split; [reflexivity|]. apply absent_app. now split.
  - intros Hmore.
    rewrite decreaseItems_first_not_one, map_drop_split by (assumption || lia).
    split; [reflexivity|]. split; [apply round64_ge_one; lia|].
    intros Hle. rewrite round64_exact by (unfold two53 in *; lia).
    reflexivity.
Qed.

Lemma decrease_behaviour_witness :
  well_formed [ mkCartItem 5 3; mkCartItem 7 1 ]
  /\ decreaseItems 7 [ mkCartItem 5 3; mkCartItem 7 1 ] = [ mkCartItem 5 3 ] ++ []
  /\ absent 7 (decreaseItems 7 [ mkCartItem 5 3; mkCartItem 7 1 ])
  /\ decreaseItems 5 [ mkCartItem 5 3; mkCartItem 7 1 ]
     = [] ++ mkCartItem 5 (3 - 1) :: [ mkCartItem 7 1 ]
  /\ absent 9 [ mkCartItem 5 3; mkCartItem 7 1 ]
  /\ decreaseItems 9 [ mkCartItem 5 3; mkCartItem 7 1 ]
     = [ mkCartItem 5 3; mkCartItem 7 1 ].
Proof.
  assert (H : well_formed [ mkCartItem 5 3; mkCartItem 7 1 ])
    by explicit_cart.
  assert (Habs : absent 9 [ mkCartItem 5 3; mkCartItem 7 1 ])
    by explicit_cart.
  destruct (decrease_behaviour [ mkCartItem 5 3; mkCartItem 7 1 ] 7 H)
    as [Hseven _].
  destruct (Hseven [ mkCartItem 5 3 ] (mkCartItem 7 1) [] eq_refl eq_refl)
    as [Hone _].
  destruct (decrease_behaviour [ mkCartItem 5 3; mkCartItem 7 1 ] 5 H)
    as [Hfive _].
  destruct (Hfive [] (mkCartItem 5 3) [ mkCartItem 7 1 ] eq_refl eq_refl)
    as [_ Hmore].
  destruct (decrease_behaviour [ mkCartItem 5 3; mkCartItem 7 1 ] 9 H)
    as [_ Hnone].
  assert (Hthree : 1 < quantity (mkCartItem 5 3)) by (simpl; lia).
  split; [exact H|].
  split; [exact (proj1 (Hone eq_refl))|].
  split; [exact (proj2 (Hone eq_refl))|].
  split.
  - apply (proj2 (proj2 (Hmore Hthree))). unfold two53. simpl. lia.
  - split; [exact Habs | exact (Hnone Habs)].
Defined.

(** * Increase followed by decrease *)

(** Against C5 as worded for every quantity: from 2^53 the increase
    rounds back to 2^53 and the decrease then gives 2^53 - 1, one less
    than the original. *)
Lemma increase_decrease_loses_one_at_two53 :
  well_formed [ mkCartItem 1 two53 ]
  /\ decreaseItems 1 (increaseItems 1 [ mkCartItem 1 two53 ])
     = [ mkCartItem 1 (two53 - 1) ]
  /\ decreaseItems 1 (increaseItems 1 [ mkCartItem 1 two53 ])
     <> [ mkCartItem 1 two53 ].
Proof.
  split; [split; repeat constructor; simpl; [tauto | discriminate]|].
  split; [vm_compute; reflexivity | vm_compute; discriminate].
Qed.

(** C5, as amended.  On a list with unique item ids and positive
    quantities in which the quantity of the entry for [k], if there is
    one, is below 2^53, decreasing [k] right after increasing [k] gives
    back the original list, whether or not it had an entry for [k]; the
    visibility flag is untouched, so the whole state is restored. *)
Theorem increase_decrease_inverse :
  forall (items : list CartItem) (k : Z),
    well_formed items ->
    (forall item : CartItem,
        In item items -> id item = k -> quantity item < two53) ->
    decreaseItems k (increaseItems k items) = items
    /\ (forall open : bool,
          decreaseCartQuantity k
            (increaseCartQuantity k (mkProviderState open items))
          = mkProviderState open items).
Proof.
  intros items k [Huniq Hpos] Hbound.
  assert (Hlist : decreaseItems k (increaseItems k items) = items).
  { destruct (absent_dec k items) as [Habs|Hpres].
    - rewrite increaseItems_absent by assumption.
      rewrite decreaseItems_first_one by trivial.
      rewrite filter_other_split by (trivial || apply absent_nil).
      apply app_nil_r.
    - destruct (present_split _ _ Hpres)
        as (pre & item & post & -> & Hpre & Hid).
      pose proof (unique_ids_split _ _ _ Huniq) as [_ Hpost].
      rewrite Hid in Hpost.
      specialize (Hbound item (in_elt item pre post) Hid).
      unfold positive_quantities in Hpos.
      apply Forall_app in Hpos as [_ Hpos].
      apply Forall_cons_iff in Hpos as [Hq _].
      rewrite increaseItems_first, map_bump_split by assumption.
      rewrite (round64_exact (quantity item + 1))
        by (unfold two53 in *; lia).
      rewrite decreaseItems_first_not_one by (trivial; simpl; lia).
      rewrite map_drop_split by trivial. simpl.
      rewrite round64_exact by (unfold two53 in *; lia).
      destruct item as [i q]. simpl in *. subst i.
      do 3 f_equal. lia. }
  split; [exact Hlist|].
  intros open. unfold decreaseCartQuantity, increaseCartQuantity, setCartItems.
  simpl. now rewrite Hlist.
Qed.

Lemma increase_decrease_inverse_witness :
  well_formed [ mkCartItem 5 2; mkCartItem 7 1 ]
  /\ decreaseItems 7 (increaseItems 7 [ mkCartItem 5 2; mkCartItem 7 1 ])
     = [ mkCartItem 5 2; mkCartItem 7 1 ]
  /\ decreaseItems 9 (increaseItems 9 [ mkCartItem 5 2; mkCartItem 7 1 ])
     = [ mkCartItem 5 2; mkCartItem 7 1 ].
Proof.
  assert (H : well_formed [ mkCartItem 5 2; mkCartItem 7 1 ])
    by explicit_cart.
  assert (Hb : forall k item,
             In item [ mkCartItem 5 2; mkCartItem 7 1 ] ->
             id item = k -> quantity item < two53).
  { intros k item [<-|[<-|[]]] _; reflexivity. }
  split; [exact H|]. split.
  - exact (proj1 (increase_decrease_inverse _ 7 H (Hb 7))).
  - exact (proj1 (increase_decrease_inverse _ 9 H (Hb 9))).
Defined.

(** * The total quantity *)

Lemma sum_quantities_app (l1 l2 : list CartItem) :
  sum_quantities (l1 ++ l2) = sum_quantities l1 + sum_quantities l2.
Proof. induction l1 as [|x l1 IH]; simpl; [reflexivity | lia]. Qed.

Lemma sum_magnitudes_app (l1 l2 : list CartItem) :
  sum_magnitudes (l1 ++ l2) = sum_magnitudes l1 + sum_magnitudes l2.
Proof. induction l1 as [|x l1 IH]; simpl; [reflexivity | lia]. Qed.

Lemma sum_magnitudes_nonneg (items : list CartItem) :
  0 <= sum_magnitudes items.
Proof. induction items as [|x rest IH]; simpl; lia. Qed.

Lemma sum_quantities_magnitudes (items : list CartItem) :
  Z.abs (sum_quantities items) <= sum_magnitudes items.
Proof. induction items as [|x rest IH]; simpl; lia. Qed.

Lemma magnitude_le_sum (items : list CartItem) (item : CartItem) :
  In item items -> Z.abs (quantity item) <= sum_magnitudes items.
Proof.
  intros Hin. destruct (in_split _ _ Hin) as (pre & post & ->).
  rewrite sum_magnitudes_app. simpl.
  pose proof (sum_magnitudes_nonneg pre).
  pose proof (sum_magnitudes_nonneg post). lia.
Qed.

Lemma sum_magnitudes_positive (items : list CartItem) :
  positive_quantities items -> sum_magnitudes items = sum_quantities items.
Proof. induction 1 as [|x rest Hq _ IH]; simpl; lia. Qed.

Lemma sum_magnitudes_filter (p : CartItem -> bool) (items : list CartItem) :
  sum_magnitudes (filter p items) <= sum_magnitudes items.
Proof.
  induction items as [|x rest IH]; simpl; [lia|].
  destruct (p x); simpl; lia.
Qed.

(** The [reduce], from any accumulator, while everything stays within
    2^53. *)
Lemma fold_left_quantity (items : list CartItem) (acc : Z) :
  Z.abs acc + sum_magnitudes items <= two53 ->
  fold_left (fun a item => js_add (Num (quantity item)) a) items (Num acc)
  = Num (sum_quantities items + acc).
Proof.
  revert acc. induction items as [|item rest IH]; intros acc Hb;
    cbn [fold_left sum_quantities sum_magnitudes] in *.
  - reflexivity.
  - pose proof (sum_magnitudes_nonneg rest).
    rewrite js_add_exact by lia. rewrite IH by lia. f_equal. lia.
Qed.

Lemma cartQuantity_exact (items : list CartItem) :
  sum_magnitudes items <= two53 ->
  cartQuantity items = Num (sum_quantities items).
Proof.
  intros Hb. unfold cartQuantity. rewrite fold_left_quantity by (simpl; lia).
  f_equal. lia.
Qed.

(** The exact sum after an update of a list with unique ids. *)
Lemma sum_increaseItems (k : Z) (items : list CartItem) :
  unique_ids items ->
  (forall item, In item items -> id item = k ->
                - two53 <= quantity item < two53) ->
  sum_quantities (increaseItems k items) = sum_quantities items + 1
  /\ sum_magnitudes (increaseItems k items) <= sum_magnitudes items + 1.
Proof.
  intros Huniq Hrange. destruct (absent_dec k items) as [Habs|Hpres].
  - rewrite increaseItems_absent by assumption.
    rewrite sum_quantities_app, sum_magnitudes_app. simpl. lia.
  - destruct (present_split _ _ Hpres) as (pre & item & post & -> & Hpre & Hid).
    pose proof (unique_ids_split _ _ _ Huniq) as [_ Hpost].
    rewrite Hid in Hpost.
    specialize (Hrange item (in_elt item pre post) Hid).
    rewrite increaseItems_first, map_bump_split by assumption.
    rewrite round64_exact by lia.
    rewrite !sum_quantities_app, !sum_magnitudes_app. simpl. lia.
Qed.

Lemma sum_decreaseItems (k : Z) (items : list CartItem) :
  unique_ids items -> ~ absent k items ->
  (forall item, In item items -> id item = k ->
                - two53 < quantity item <= two53) ->
  sum_quantities (decreaseItems k items) = sum_quantities items - 1
  /\ sum_magnitudes (decreaseItems k items) <= sum_magnitudes items + 1.
Proof.
  intros Huniq Hpres Hrange.
  destruct (present_split _ _ Hpres) as (pre & item & post & -> & Hpre & Hid).
  pose proof (unique_ids_split _ _ _ Huniq) as [_ Hpost].
  rewrite Hid in Hpost.
  specialize (Hrange item (in_elt item pre post) Hid).
  destruct (Z.eq_dec (quantity item) 1) as [Hone|Hmore].
  - rewrite decreaseItems_first_one, filter_other_split by assumption.
    rewrite !sum_quantities_app, !sum_magnitudes_app. simpl. lia.
  - rewrite decreaseItems_first_not_one, map_drop_split by assumption.
    rewrite round64_exact by lia.
    rewrite !sum_quantities_app, !sum_magnitudes_app. simpl. lia.
Qed.

Lemma sum_quantities_filter_le (p : CartItem -> bool) (items : list CartItem) :
  positive_quantities items ->
  sum_quantities (filter p items) <= sum_quantities items.
Proof.
  induction 1 as [|x rest Hq _ IH]; simpl; [lia|].
  destruct (p x); simpl; lia.
Qed.

Lemma quantity_le_sum (items : list CartItem) (item : CartItem) :
  positive_quantities items -> In item items ->
  1 <= quantity item <= sum_quantities items.
Proof.
  intros Hpos Hin. pose proof (magnitude_le_sum items item Hin) as Hm.
  rewrite sum_magnitudes_positive in Hm by assumption.
  unfold positive_quantities in Hpos. rewrite Forall_forall in Hpos.
  specialize (Hpos item Hin). lia.
Qed.

(** A call raises the exact sum of a well-formed list by at most 1, as
    long as the sum is below 2^53. *)
Lemma sum_perform (c : Call) (s : ProviderState) :
  well_formed (cartItems s) ->
  sum_quantities (cartItems s) < two53 ->
  sum_quantities (cartItems (perform c s)) <= sum_quantities (cartItems s) + 1.
Proof.
  intros [Huniq Hpos] Hlt.
  assert (Hq : forall item, In item (cartItems s) ->
                            1 <= quantity item < two53).
  { intros item Hin.
    pose proof (quantity_le_sum _ _ Hpos Hin). lia. }
  destruct c as [| |k|k|k]; simpl; try lia.
  - destruct (sum_increaseItems k (cartItems s) Huniq) as [Heq _].
    + intros item Hin _. specialize (Hq item Hin). unfold two53 in *. lia.
    + lia.
  - destruct (absent_dec k (cartItems s)) as [Habs|Hpres].
    + rewrite decreaseItems_absent by assumption. lia.
    + destruct (sum_decreaseItems k (cartItems s) Huniq Hpres) as [Heq _].
      * intros item Hin _. specialize (Hq item Hin). unfold two53 in *. lia.
      * lia.
  - pose proof (sum_quantities_filter_le (is_other k) _ Hpos).
    unfold removeItems. lia.
Qed.

Lemma well_formed_run_initial (calls : list Call) :
  well_formed (cartItems (run calls initialState)).
Proof. apply well_formed_run. exact well_formed_nil. Qed.

Lemma sum_run_initial (calls : list Call) :
  Z.of_nat (length calls) <= two53 ->
  sum_quantities (cartItems (run calls initialState))
  <= Z.of_nat (length calls).
Proof.
  induction calls as [|c calls IH] using rev_ind; intros Hlen.
  - simpl. lia.
  - rewrite length_app, Nat2Z.inj_add in *. simpl in *.
    rewrite run_snoc.
    pose proof (sum_perform c (run calls initialState)
                  (well_formed_run_initial calls)).
    lia.
Qed.

(** Against C6 as worded for every list: the left-to-right sum of
    doubles loses the two 1s added after 2^53, and keeps them when they
    come first. *)
Lemma cartQuantity_rounds_beyond_two53 :
  cartQuantity [ mkCartItem 1 two53; mkCartItem 2 1; mkCartItem 3 1 ]
  = Num two53
  /\ sum_quantities [ mkCartItem 1 two53; mkCartItem 2 1; mkCartItem 3 1 ]
     = two53 + 2
  /\ cartQuantity [ mkCartItem 2 1; mkCartItem 3 1; mkCartItem 1 two53 ]
     = Num (two53 + 2).
Proof. repeat split; vm_compute; reflexivity. Qed.

(** C6, as amended.  For every list of entries whose quantities have
    magnitudes that sum to at most 2^53, [cartQuantity] is the sum of the
    quantities of its entries, and 0 for the empty list (beyond 2^53 it
    is the left-to-right sum of doubles, which rounds).  In particular,
    after any sequence of at most 2^53 calls from the initial, empty cart
    the value read is the sum over the entries then present.  It is a
    function of the entries alone: the state keeps no total of its own. *)
Theorem cartQuantity_total :
  (forall items : list CartItem,
      sum_magnitudes items <= two53 ->
      cartQuantity items = Num (sum_quantities items))
  /\ cartQuantity [] = Num 0
  /\ (forall calls : list Call,
        Z.of_nat (length calls) <= two53 ->
        cartQuantity (cartItems (run calls initialState))
        = Num (sum_quantities (cartItems (run calls initialState)))).
Proof.
  split; [exact cartQuantity_exact|]. split; [reflexivity|].
  intros calls Hlen. apply cartQuantity_exact.
  rewrite sum_magnitudes_positive
    by exact (proj2 (well_formed_run_initial calls)).
  pose proof (sum_run_initial calls Hlen). lia.
Qed.

Lemma cartQuantity_total_witness :
  sum_magnitudes [ mkCartItem 5 2; mkCartItem 7 1 ] <= two53
  /\ cartQuantity [ mkCartItem 5 2; mkCartItem 7 1 ]
     = Num (sum_quantities [ mkCartItem 5 2; mkCartItem 7 1 ])
  /\ Z.of_nat (length [ IncreaseCartQuantity 5; IncreaseCartQuantity 5 ])
     <= two53
  /\ cartQuantity
       (cartItems
          (run [ IncreaseCartQuantity 5; IncreaseCartQuantity 5 ]
             initialState))
     = Num (sum_quantities
              (cartItems
                 (run [ IncreaseCartQuantity 5; IncreaseCartQuantity 5 ]
                    initialState))).
Proof.
  assert (H : sum_magnitudes [ mkCartItem 5 2; mkCartItem 7 1 ] <= two53)
    by (vm_compute; discriminate).
  assert (Hlen : Z.of_nat
                   (length [ IncreaseCartQuantity 5; IncreaseCartQuantity 5 ])
                 <= two53)
    by (vm_compute; discriminate).
  destruct cartQuantity_total as (Hlist & _ & Hrun).
  split; [exact H|]. split; [exact (Hlist _ H)|].
  split; [exact Hlen | exact (Hrun _ Hlen)].
Defined.

(** * Removal *)

Lemma Subseq_refl {A : Type} (l : list A) : Subseq l l.
Proof. induction l; [apply Subseq_nil | now apply Subseq_keep]. Qed.

Lemma Subseq_filter {A : Type} (p : A -> bool) (l : list A) :
  Subseq (filter p l) l.
Proof.
  induction l as [|x l IH]; simpl; [constructor|].
  destruct (p x); [now apply Subseq_keep | now apply Subseq_skip].
Qed.

Lemma Subseq_map {A B : Type} (f : A -> B) (l' l : list A) :
  Subseq l' l -> Subseq (map f l') (map f l).
Proof. induction 1; simpl; constructor; assumption. Qed.

Lemma Subseq_app_l {A : Type} (l tl : list A) : Subseq l (l ++ tl).
Proof.
  induction l as [|x l IH]; simpl.
  - induction tl; [apply Subseq_nil | now apply Subseq_skip].
  - now apply Subseq_keep.
Qed.

Lemma length_filter_split (k : Z) (items : list CartItem) :
  (length (filter (is_other k) items) + length (filter (is_item k) items)
   = length items)%nat.
Proof.
  induction items as [|item rest IH]; simpl; [reflexivity|].
  rewrite is_other_negb. destruct (is_item k item); simpl; lia.
Qed.

(** C7. For every list of entries and every item id [k], removing [k]
    gives the list in which every entry for [k] is deleted and every
    other entry is kept, unchanged and in the original relative order;
    when there is no entry for [k] the list comes back as it was.  On
    [[{5,2},{7,1}]], removing 5 gives [[{7,1}]], whose total is 1. *)
Theorem remove_behaviour :
  (forall (items : list CartItem) (k : Z),
      Subseq (removeItems k items) items
      /\ (forall item : CartItem,
            In item (removeItems k items) <-> In item items /\ id item <> k)
      /\ (length (removeItems k items) + entries_for k items
          = length items)%nat
      /\ (absent k items -> removeItems k items = items))
  /\ cartItems
       (removeFromCart 5
          (mkProviderState false [ mkCartItem 5 2; mkCartItem 7 1 ]))
     = [ mkCartItem 7 1 ]
  /\ cartQuantity (removeItems 5 [ mkCartItem 5 2; mkCartItem 7 1 ]) = Num 1.
Proof.
  split; [|split; reflexivity].
  intros items k. unfold removeItems. split; [apply Subseq_filter|]. split.
  - intros item. rewrite filter_In, is_other_negb, negb_true_iff.
    now rewrite is_item_false.
  - split; [apply length_filter_split | apply filter_other_absent].
Qed.

Lemma remove_behaviour_witness :
  absent 9 [ mkCartItem 5 2; mkCartItem 7 1 ]
  /\ removeItems 9 [ mkCartItem 5 2; mkCartItem 7 1 ]
     = [ mkCartItem 5 2; mkCartItem 7 1 ].
Proof.
  assert (Habs : absent 9 [ mkCartItem 5 2; mkCartItem 7 1 ])
    by explicit_cart.
  split; [exact Habs|].
  exact (proj2 (proj2 (proj2
           (proj1 remove_behaviour [ mkCartItem 5 2; mkCartItem 7 1 ] 9)))
           Habs).
Defined.

(** * Lookup *)

(** C8. On a list with unique item ids and positive quantities,
    [getItemQuantity] returns the quantity of the entry for [k] when
    there is one, and 0 when there is none.  It is a total function of
    the list and the id: it has a value on every input and changes
    nothing. *)
Theorem getItemQuantity_lookup :
  forall (items : list CartItem) (k : Z),
    well_formed items ->
    (forall item : CartItem,
        In item items -> id item = k ->
        getItemQuantity items k = quantity item)
    /\ (absent k items -> getItemQuantity items k = 0).
Proof.
  intros items k [Huniq Hpos]. unfold getItemQuantity. split.
  - intros item Hin <-.
    rewrite (unique_ids_find items item Huniq Hin). simpl.
    unfold positive_quantities in Hpos. rewrite Forall_forall in Hpos.
    specialize (Hpos item Hin).
    destruct (Z.eqb_spec (quantity item) 0); [lia | reflexivity].
  - intros Habs. apply find_absent in Habs. now rewrite Habs.
Qed.

Lemma getItemQuantity_lookup_witness :
  well_formed [ mkCartItem 5 2; mkCartItem 7 1 ]
  /\ getItemQuantity [ mkCartItem 5 2; mkCartItem 7 1 ] 5
     = quantity (mkCartItem 5 2)
  /\ absent 99 [ mkCartItem 5 2; mkCartItem 7 1 ]
  /\ getItemQuantity [ mkCartItem 5 2; mkCartItem 7 1 ] 99 = 0.
Proof.
  assert (H : well_formed [ mkCartItem 5 2; mkCartItem 7 1 ])
    by explicit_cart.
  assert (Habs : absent 99 [ mkCartItem 5 2; mkCartItem 7 1 ])
    by explicit_cart.
  split; [exact H|]. split.
  - apply (proj1 (getItemQuantity_lookup _ 5 H) (mkCartItem 5 2)).
    + simpl. left. reflexivity.
    + reflexivity.
  - split; [exact Habs|].
    exact (proj2 (getItemQuantity_lookup _ 99 H) Habs).
Defined.

(** * Order of the entries *)

Lemma others_filter (k : Z) (items : list CartItem) :
  others k items = filter (is_other k) items.
Proof. reflexivity. Qed.

Lemma others_app (k : Z) (l1 l2 : list CartItem) :
  others k (l1 ++ l2) = others k l1 ++ others k l2.
Proof. apply filter_app. Qed.

Lemma others_idem (k : Z) (items : list CartItem) :
  others k (others k items) = others k items.
Proof.
  unfold others. induction items as [|item rest IH]; simpl; [reflexivity|].
  destruct (negb (id item =? k)) eqn:Hkeep; simpl; [|exact IH].
  now rewrite Hkeep, IH.
Qed.

Lemma others_map_same_id (k : Z) (f : CartItem -> CartItem)
  (items : list CartItem) :
  (forall item, id (f item) = id item) ->
  (forall item, id item <> k -> f item = item) ->
  others k (map f items) = others k items.
Proof.
  intros Hid Hother. unfold others.
  induction items as [|item rest IH]; simpl; [reflexivity|].
  rewrite Hid. destruct (Z.eqb_spec (id item) k) as [Heq|Hne]; simpl.
  - exact IH.
  - now rewrite IH, Hother.
Qed.

Lemma same_slot_map (k : Z) (f : CartItem -> CartItem)
  (items : list CartItem) :
  (forall item, id (f item) = id item) ->
  (forall item, id item <> k -> f item = item) ->
  Forall2 (same_slot k) items (map f items).
Proof.
  intros Hid Hother. induction items as [|item rest IH]; simpl.
  - constructor.
  - constructor; [|exact IH]. split; [apply Hid | apply Hother].
Qed.

(** C9. For every list of entries, the three updaters keep the entries
    they neither delete nor rewrite in their relative order: the entries
    for item ids other than [k] are the same, in the same order, before
    and after; an entry rewritten by an increase or a decrease stays at
    its index; an increase of an id without entry appends the new entry
    at the end; a decrease or a removal only leaves entries out. *)
Theorem order_preservation :
  forall (items : list CartItem) (k : Z),
    (others k (increaseItems k items) = others k items
     /\ others k (decreaseItems k items) = others k items
     /\ others k (removeItems k items) = others k items)
    /\ (~ absent k items ->
        Forall2 (same_slot k) items (increaseItems k items))
    /\ (absent k items ->
        increaseItems k items = items ++ [ {| id := k; quantity := 1 |} ])
    /\ (decreaseItems k items = others k items
        \/ Forall2 (same_slot k) items (decreaseItems k items))
    /\ removeItems k items = others k items
    /\ (Subseq (map id items) (map id (increaseItems k items))
        /\ Subseq (map id (decreaseItems k items)) (map id items)
        /\ Subseq (removeItems k items) items).
Proof.
  intros items k.
  assert (Hbump : others k (map (bump k) items) = others k items)
    by (apply others_map_same_id; [apply bump_id | apply bump_other]).
  assert (Hdrop : others k (map (drop k) items) = others k items)
    by (apply others_map_same_id; [apply drop_id | apply drop_other]).
  split; [split; [|split]| split; [|split; [|split; [|split; [|split; [|split]]]]]].
  - unfold increaseItems. destruct (is_nullish _); [|exact Hbump].
    rewrite others_app. unfold others at 2. simpl.
    rewrite Z.eqb_refl. simpl. apply app_nil_r.
  - unfold decreaseItems. destruct (is_one _); [|exact Hdrop].
    rewrite <- others_filter. apply others_idem.
  - unfold removeItems. rewrite <- others_filter. apply others_idem.
  - intros Hpres. rewrite increaseItems_present by assumption.
    apply same_slot_map; [apply bump_id | apply bump_other].
  - apply increaseItems_absent.
  - unfold decreaseItems. destruct (is_one _); [left; reflexivity|].
    right. apply same_slot_map; [apply drop_id | apply drop_other].
  - reflexivity.
  - unfold increaseItems. destruct (is_nullish _).
    + rewrite map_app. apply Subseq_app_l.
    + rewrite map_id_bump. apply Subseq_refl.
  - unfold decreaseItems. destruct (is_one _).
    + apply Subseq_map, Subseq_filter.
    + rewrite map_id_drop. apply Subseq_refl.
  - apply Subseq_filter.
Qed.

Lemma order_preservation_witness :
  (~ absent 7 [ mkCartItem 5 2; mkCartItem 7 1; mkCartItem 8 4 ]
   /\ Forall2 (same_slot 7)
        [ mkCartItem 5 2; mkCartItem 7 1; mkCartItem 8 4 ]
        (increaseItems 7 [ mkCartItem 5 2; mkCartItem 7 1; mkCartItem 8 4 ]))
  /\ (absent 9 [ mkCartItem 5 2; mkCartItem 7 1; mkCartItem 8 4 ]
      /\ increaseItems 9 [ mkCartItem 5 2; mkCartItem 7 1; mkCartItem 8 4 ]
         = [ mkCartItem 5 2; mkCartItem 7 1; mkCartItem 8 4 ]
           ++ [ mkCartItem 9 1 ]).
Proof.
  assert (Hpres : ~ absent 7 [ mkCartItem 5 2; mkCartItem 7 1; mkCartItem 8 4 ])
    by (unfold absent; simpl; tauto).
  assert (Habs : absent 9 [ mkCartItem 5 2; mkCartItem 7 1; mkCartItem 8 4 ])
    by explicit_cart.
  split; (split; [assumption|]).
  - exact (proj1 (proj2 (order_preservation _ 7)) Hpres).
  - exact (proj1 (proj2 (proj2 (order_preservation _ 9))) Habs).
Defined.

(** * Falsy quantities in the lookup *)

(** Against C10 as worded for any list holding such an entry: a zero or
    negative quantity is not seen by [getItemQuantity] when an earlier
    entry has the same item id, since the lookup stops at the first entry
    for the id. *)
Lemma getItemQuantity_later_entry_unseen :
  (In (mkCartItem 5 0) [ mkCartItem 5 3; mkCartItem 5 0 ]
   /\ getItemQuantity [ mkCartItem 5 3; mkCartItem 5 0 ] 5 = 3
   /\ getItemQuantity [ mkCartItem 5 3; mkCartItem 5 0 ] 5 <> 0)
  /\ (In (mkCartItem 5 (-2)) [ mkCartItem 5 3; mkCartItem 5 (-2) ]
      /\ getItemQuantity [ mkCartItem 5 3; mkCartItem 5 (-2) ] 5 = 3
      /\ getItemQuantity [ mkCartItem 5 3; mkCartItem 5 (-2) ] 5 <> -2).
Proof.
  repeat split; try (vm_compute; discriminate);
    simpl; right; left; reflexivity.
Qed.

(** C10, as amended.  [getItemQuantity] reads the first entry for the
    item id [k].  When that entry has quantity 0 the result is 0, the
    same as for any list without an entry for [k]; when that entry has a
    negative quantity the result is that quantity.  On a list with
    unique item ids the first entry for [k] is the only one, so this
    holds of any entry of the list. *)
Theorem getItemQuantity_falsy_first :
  (forall (pre post : list CartItem) (item : CartItem) (k : Z),
      absent k pre -> id item = k ->
      (quantity item = 0 ->
       getItemQuantity (pre ++ item :: post) k = 0
       /\ (forall items' : list CartItem,
             absent k items' ->
             getItemQuantity (pre ++ item :: post) k
             = getItemQuantity items' k))
      /\ (quantity item < 0 ->
          getItemQuantity (pre ++ item :: post) k = quantity item))
  /\ (forall (items : list CartItem) (item : CartItem),
        unique_ids items -> In item items ->
        (quantity item = 0 -> getItemQuantity items (id item) = 0)
        /\ (quantity item < 0 ->
            getItemQuantity items (id item) = quantity item)).
Proof.
  assert (Hfirst : forall pre post item k,
             absent k pre -> id item = k ->
             getItemQuantity (pre ++ item :: post) k
             = if quantity item =? 0 then 0 else quantity item).
  { intros pre post item k Hpre Hid. unfold getItemQuantity.
    now rewrite (find_first k pre post item Hpre Hid). }
  split.
  - intros pre post item k Hpre Hid. rewrite (Hfirst _ _ _ _ Hpre Hid).
    split.
    + intros ->. split; [reflexivity|].
      intros items' Habs. unfold getItemQuantity.
      apply find_absent in Habs. now rewrite Habs.
    + intros Hneg. destruct (Z.eqb_spec (quantity item) 0); [lia|reflexivity].
  - intros items item Huniq Hin. unfold getItemQuantity.
    rewrite (unique_ids_find items item Huniq Hin). simpl. split.
    + now intros ->.
    + intros Hneg. destruct (Z.eqb_spec (quantity item) 0); [lia|reflexivity].
Qed.

Lemma getItemQuantity_falsy_first_witness :
  (absent 5 [ mkCartItem 7 1 ]
   /\ getItemQuantity ([ mkCartItem 7 1 ] ++ mkCartItem 5 0 :: []) 5 = 0
   /\ getItemQuantity ([ mkCartItem 7 1 ] ++ mkCartItem 5 (-2) :: []) 5
      = quantity (mkCartItem 5 (-2)))
  /\ (unique_ids [ mkCartItem 7 1; mkCartItem 5 0 ]
      /\ getItemQuantity [ mkCartItem 7 1; mkCartItem 5 0 ]
           (id (mkCartItem 5 0)) = 0).
Proof.
  assert (Habs : absent 5 [ mkCartItem 7 1 ]) by explicit_cart.
  assert (Huniq : unique_ids [ mkCartItem 7 1; mkCartItem 5 0 ])
    by explicit_cart.
  destruct getItemQuantity_falsy_first as [Hfirst Hany].
  split; [split; [exact Habs | split] | split; [exact Huniq|]].
  - exact (proj1 (proj1 (Hfirst [ mkCartItem 7 1 ] [] (mkCartItem 5 0) 5
                           Habs eq_refl) eq_refl)).
  - apply (proj2 (Hfirst [ mkCartItem 7 1 ] [] (mkCartItem 5 (-2)) 5
                    Habs eq_refl)).
    simpl. lia.
  - apply (proj1 (Hany [ mkCartItem 7 1; mkCartItem 5 0 ] (mkCartItem 5 0)
                    Huniq (or_intror (or_introl eq_refl)))).
    reflexivity.
Defined.

(** * Beyond the specification: lookups after an update *)

Lemma find_is_item_app (k : Z) (l1 l2 : list CartItem) :
  find (is_item k) (l1 ++ l2)
  = match find (is_item k) l1 with
    | Some x => Some x
    | None => find (is_item k) l2
    end.
Proof.
  induction l1 as [|x l1 IH]; simpl; [reflexivity|].
  destruct (is_item k x); [reflexivity | exact IH].
Qed.

Lemma find_is_item_id (k : Z) (items : list CartItem) (x : CartItem) :
  find (is_item k) items = Some x -> id x = k.
Proof. intros H. apply find_some in H as [_ H]. now apply is_item_true. Qed.

Lemma find_map_same_id (k : Z) (f : CartItem -> CartItem)
  (items : list CartItem) :
  (forall item, id (f item) = id item) ->
  find (is_item k) (map f items) = option_map f (find (is_item k) items).
Proof.
  intros Hid. induction items as [|x rest IH]; simpl; [reflexivity|].
  unfold is_item at 1. rewrite Hid. fold (is_item k x).
  destruct (is_item k x); [reflexivity | exact IH].
Qed.

Lemma find_filter_other (j k : Z) (items : list CartItem) :
  j <> k ->
  find (is_item k) (filter (is_other j) items) = find (is_item k) items.
Proof.
  intros Hne. induction items as [|x rest IH]; simpl; [reflexivity|].
  rewrite is_other_negb. unfold is_item.
  destruct (Z.eqb_spec (id x) j) as [Hj|Hj]; simpl.
  - destruct (Z.eqb_spec (id x) k); [congruence | exact IH].
  - fold (is_item k x). destruct (is_item k x); [reflexivity | exact IH].
Qed.

Lemma find_filter_same (k : Z) (items : list CartItem) :
  find (is_item k) (filter (is_other k) items) = None.
Proof.
  induction items as [|x rest IH]; simpl; [reflexivity|].
  rewrite is_other_negb. destruct (is_item k x) eqn:Hx; simpl; [exact IH|].
  now rewrite Hx.
Qed.

(** An update for the item id [j] does not change which entry [find]
    returns for another item id [k]. *)
Lemma find_increaseItems_other (j k : Z) (items : list CartItem) :
  j <> k ->
  find (is_item k) (increaseItems j items) = find (is_item k) items.
Proof.
  intros Hne. unfold increaseItems. destruct (is_nullish _).
  - rewrite find_is_item_app. destruct (find (is_item k) items); trivial.
    simpl. unfold is_item. simpl.
    destruct (Z.eqb_spec j k); [contradiction | reflexivity].
  - rewrite find_map_same_id by apply bump_id.
    destruct (find (is_item k) items) as [x|] eqn:Hx; simpl; trivial.
    apply find_is_item_id in Hx. rewrite bump_other; congruence.
Qed.

Lemma find_decreaseItems_other (j k : Z) (items : list CartItem) :
  j <> k ->
  find (is_item k) (decreaseItems j items) = find (is_item k) items.
Proof.
  intros Hne. unfold decreaseItems. destruct (is_one _).
  - now apply find_filter_other.
  - rewrite find_map_same_id by apply drop_id.
    destruct (find (is_item k) items) as [x|] eqn:Hx; simpl; trivial.
    apply find_is_item_id in Hx. rewrite drop_other; congruence.
Qed.

Lemma find_removeItems_other (j k : Z) (items : list CartItem) :
  j <> k ->
  find (is_item k) (removeItems j items) = find (is_item k) items.
Proof. apply find_filter_other. Qed.

Lemma lookup_increaseItems_same (k : Z) (items : list CartItem) :
  - two53 <= getItemQuantity items k < two53 ->
  getItemQuantity (increaseItems k items) k = getItemQuantity items k + 1.
Proof.
  unfold getItemQuantity, increaseItems.
  destruct (find (is_item k) items) as [x|] eqn:Hx; simpl.
  - rewrite find_map_same_id by apply bump_id. rewrite Hx. simpl.
    apply find_is_item_id in Hx. subst k. rewrite bump_item. simpl.
    destruct (Z.eqb_spec (quantity x) 0) as [Hz|Hnz]; intros Hrange.
    + rewrite Hz. reflexivity.
    + rewrite round64_exact by (unfold two53 in *; lia).
      destruct (Z.eqb_spec (quantity x + 1) 0); lia.
  - intros _. rewrite find_is_item_app, Hx. simpl. unfold is_item. simpl.
    now rewrite Z.eqb_refl.
Qed.

Lemma lookup_decreaseItems_same (k : Z) (items : list CartItem) :
  positive_quantities items ->
  getItemQuantity items k <= two53 ->
  getItemQuantity (decreaseItems k items) k
  = Z.max 0 (getItemQuantity items k - 1).
Proof.
  intros Hpos. unfold getItemQuantity, decreaseItems.
  destruct (find (is_item k) items) as [x|] eqn:Hx; simpl.
  - assert (Hq : 1 <= quantity x).
    { unfold positive_quantities in Hpos. rewrite Forall_forall in Hpos.
      apply Hpos. now apply find_some in Hx as [Hin _]. }
    destruct (Z.eqb_spec (quantity x) 0) as [Hz|_]; [lia|]. intros Hle.
    destruct (Z.eqb_spec (quantity x) 1) as [Hone|Hmore].
    + rewrite find_filter_same. simpl. lia.
    + rewrite find_map_same_id by apply drop_id. rewrite Hx. simpl.
      apply find_is_item_id in Hx. subst k. rewrite drop_item. simpl.
      rewrite round64_exact by (unfold two53 in *; lia).
      destruct (Z.eqb_spec (quantity x - 1) 0); lia.
  - intros _. rewrite find_map_same_id by apply drop_id. now rewrite Hx.
Qed.

Lemma lookup_removeItems_same (k : Z) (items : list CartItem) :
  getItemQuantity (removeItems k items) k = 0.
Proof.
  unfold getItemQuantity, removeItems. now rewrite find_filter_same.
Qed.

(** X1. On every list of entries, increasing [k] raises the lookup of
    [k] by exactly 1 (from 0 when [k] had no entry) whenever that lookup
    lies from -2^53 to 2^53 - 1, and it leaves the lookup of every other
    item id as it was, whatever the quantities. *)
Theorem getItemQuantity_after_increase :
  forall (items : list CartItem) (k : Z),
    (- two53 <= getItemQuantity items k < two53 ->
     getItemQuantity (increaseItems k items) k = getItemQuantity items k + 1)
    /\ (forall j : Z,
          j <> k ->
          getItemQuantity (increaseItems k items) j
          = getItemQuantity items j).
Proof.
  intros items k. split; [apply lookup_increaseItems_same|].
  intros j Hne. unfold getItemQuantity.
  rewrite find_increaseItems_other; congruence.
Qed.

Lemma getItemQuantity_after_increase_witness :
  - two53 <= getItemQuantity [ mkCartItem 5 2; mkCartItem 7 1 ] 5 < two53
  /\ getItemQuantity (increaseItems 5 [ mkCartItem 5 2; mkCartItem 7 1 ]) 5
     = getItemQuantity [ mkCartItem 5 2; mkCartItem 7 1 ] 5 + 1
  /\ getItemQuantity (increaseItems 5 [ mkCartItem 5 2; mkCartItem 7 1 ]) 7
     = getItemQuantity [ mkCartItem 5 2; mkCartItem 7 1 ] 7.
Proof.
  assert (H : - two53 <= getItemQuantity [ mkCartItem 5 2; mkCartItem 7 1 ] 5
              < two53)
    by (vm_compute; split; [discriminate | reflexivity]).
  destruct (getItemQuantity_after_increase
              [ mkCartItem 5 2; mkCartItem 7 1 ] 5) as [Hsame Hother].
  split; [exact H|]. split; [exact (Hsame H)|].
  apply Hother. lia.
Defined.

(** X2. On a list whose quantities are all at least 1, decreasing [k]
    lowers the lookup of [k] by 1 but never below 0 (it stays 0 when [k]
    has no entry), whenever that lookup is at most 2^53; on every list it
    leaves the lookup of every other item id as it was. *)
Theorem getItemQuantity_after_decrease :
  forall (items : list CartItem) (k : Z),
    (positive_quantities items ->
     getItemQuantity items k <= two53 ->
     getItemQuantity (decreaseItems k items) k
     = Z.max 0 (getItemQuantity items k - 1))
    /\ (forall j : Z,
          j <> k ->
          getItemQuantity (decreaseItems k items) j
          = getItemQuantity items j).
Proof.
  intros items k. split; [apply lookup_decreaseItems_same|].
  intros j Hne. unfold getItemQuantity.
  rewrite find_decreaseItems_other; congruence.
Qed.

Lemma getItemQuantity_after_decrease_witness :
  positive_quantities [ mkCartItem 5 2; mkCartItem 7 1 ]
  /\ getItemQuantity [ mkCartItem 5 2; mkCartItem 7 1 ] 7 <= two53
  /\ getItemQuantity (decreaseItems 7 [ mkCartItem 5 2; mkCartItem 7 1 ]) 7
     = Z.max 0 (getItemQuantity [ mkCartItem 5 2; mkCartItem 7 1 ] 7 - 1)
  /\ getItemQuantity (decreaseItems 7 [ mkCartItem 5 2; mkCartItem 7 1 ]) 5
     = getItemQuantity [ mkCartItem 5 2; mkCartItem 7 1 ] 5.
Proof.
  assert (H : positive_quantities [ mkCartItem 5 2; mkCartItem 7 1 ])
    by explicit_cart.
  assert (Hle : getItemQuantity [ mkCartItem 5 2; mkCartItem 7 1 ] 7 <= two53)
    by (vm_compute; discriminate).
  destruct (getItemQuantity_after_decrease
              [ mkCartItem 5 2; mkCartItem 7 1 ] 7) as [Hsame Hother].
  split; [exact H|]. split; [exact Hle|]. split; [exact (Hsame H Hle)|].
  apply Hother. lia.
Defined.

(** X3. On every list of entries, after removing [k] the lookup of [k]
    is 0, even when the list held several entries for [k], and the
    lookup of every other item id is as it was. *)
Theorem getItemQuantity_after_remove :
  forall (items : list CartItem) (k : Z),
    getItemQuantity (removeItems k items) k = 0
    /\ (forall j : Z,
          j <> k ->
          getItemQuantity (removeItems k items) j = getItemQuantity items j).
Proof.
  intros items k. split; [apply lookup_removeItems_same|].
  intros j Hne. unfold getItemQuantity.
  rewrite find_removeItems_other; congruence.
Qed.

Lemma getItemQuantity_after_remove_witness :
  getItemQuantity (removeItems 5 [ mkCartItem 5 2; mkCartItem 7 1 ]) 7
  = getItemQuantity [ mkCartItem 5 2; mkCartItem 7 1 ] 7.
Proof.
  apply (proj2 (getItemQuantity_after_remove
                  [ mkCartItem 5 2; mkCartItem 7 1 ] 5) 7).
  lia.
Defined.

(** * Beyond the specification: a run of calls, item id by item id *)

(** Every quantity is at most [b]. *)
Lemma bounded_perform (b : Z) (c : Call) (s : ProviderState) :
  1 <= b + 1 <= two53 ->
  Forall (fun item => quantity item <= b) (cartItems s) ->
  Forall (fun item => quantity item <= b + 1) (cartItems (perform c s)).
Proof.
  intros Hb Hall.
  assert (Hweak : Forall (fun item => quantity item <= b + 1) (cartItems s)).
  { revert Hall. apply Forall_impl. intros item Hq. lia. }
  destruct c as [| |k|k|k]; simpl; trivial.
  - unfold increaseItems. destruct (is_nullish _).
    + apply Forall_app. split; [exact Hweak|]. repeat constructor. simpl. lia.
    + apply Forall_map. revert Hall. apply Forall_impl.
      intros item Hq. unfold bump. destruct (id item =? k); simpl; [|lia].
      destruct (Z.le_gt_cases (- two53) (quantity item + 1)) as [Hlo|Hlo].
      * rewrite round64_exact; lia.
      * unfold round64. destruct (Z.ltb_spec (quantity item + 1) 0);
          [|unfold two53 in *; lia].
        pose proof (round_magnitude_nonneg (- (quantity item + 1))
                      ltac:(lia)). lia.
  - unfold decreaseItems. destruct (is_one _).
    + rewrite Forall_forall in *. intros item Hin.
      apply filter_In in Hin as [Hin _]. now apply Hweak.
    + apply Forall_map. revert Hall. apply Forall_impl.
      intros item Hq. unfold drop. destruct (id item =? k); simpl; [|lia].
      destruct (Z.le_gt_cases (- two53) (quantity item - 1)) as [Hlo|Hlo].
      * rewrite round64_exact; lia.
      * unfold round64. destruct (Z.ltb_spec (quantity item - 1) 0);
          [|unfold two53 in *; lia].
        pose proof (round_magnitude_nonneg (- (quantity item - 1))
                      ltac:(lia)). lia.
  - unfold removeItems. rewrite Forall_forall in *. intros item Hin.
    apply filter_In in Hin as [Hin _]. now apply Hweak.
Qed.

Lemma lookup_bounded (b k : Z) (items : list CartItem) :
  0 <= b -> Forall (fun item => quantity item <= b) items ->
  getItemQuantity items k <= b.
Proof.
  intros Hb Hall. unfold getItemQuantity.
  destruct (find (is_item k) items) as [x|] eqn:Hx; simpl; [|exact Hb].
  apply find_some in Hx as [Hin _]. rewrite Forall_forall in Hall.
  specialize (Hall x Hin). destruct (quantity x =? 0); lia.
Qed.

Lemma lookup_nonneg (k : Z) (items : list CartItem) :
  positive_quantities items -> 0 <= getItemQuantity items k.
Proof.
  intros Hpos. unfold getItemQuantity.
  destruct (find (is_item k) items) as [x|] eqn:Hx; simpl; [|lia].
  apply find_some in Hx as [Hin _].
  unfold positive_quantities in Hpos. rewrite Forall_forall in Hpos.
  specialize (Hpos x Hin). destruct (quantity x =? 0); lia.
Qed.

Lemma lookup_perform (b k : Z) (c : Call) (s : ProviderState) :
  positive_quantities (cartItems s) ->
  0 <= b < two53 ->
  Forall (fun item => quantity item <= b) (cartItems s) ->
  getItemQuantity (cartItems (perform c s)) k
  = counter_step k (getItemQuantity (cartItems s) k) c.
Proof.
  intros Hpos Hb Hall.
  pose proof (lookup_bounded b k (cartItems s) (proj1 Hb) Hall) as Hup.
  pose proof (lookup_nonneg k (cartItems s) Hpos) as Hlow.
  destruct c as [| |j|j|j]; simpl; trivial;
    destruct (Z.eqb_spec j k) as [->|Hne].
  - apply lookup_increaseItems_same. unfold two53 in *. lia.
  - unfold getItemQuantity. now rewrite find_increaseItems_other.
  - apply lookup_decreaseItems_same; [assumption | lia].
  - unfold getItemQuantity. now rewrite find_decreaseItems_other.
  - apply lookup_removeItems_same.
  - unfold getItemQuantity. now rewrite find_removeItems_other.
Qed.

(** X4. Seen through [getItemQuantity], the cart is one counter per item
    id, as long as no quantity can pass 2^53: from a state whose list
    has unique ids and quantities from 1 to [b], and for a sequence of
    calls whose length added to [b] is at most 2^53, the lookup of [k]
    after the calls is the value reached by a counter that starts at the
    present lookup, goes up by 1 on each increase of [k], down by 1 but
    not below 0 on each decrease of [k], back to 0 on each removal of
    [k], and ignores every other call.  From the initial state the
    counter starts at 0, for any sequence of at most 2^53 calls. *)
Theorem getItemQuantity_run_counter :
  (forall (calls : list Call) (s : ProviderState) (k b : Z),
      well_formed (cartItems s) ->
      0 <= b ->
      Forall (fun item => quantity item <= b) (cartItems s) ->
      b + Z.of_nat (length calls) <= two53 ->
      getItemQuantity (cartItems (run calls s)) k
      = counter k calls (getItemQuantity (cartItems s) k))
  /\ (forall (calls : list Call) (k : Z),
        Z.of_nat (length calls) <= two53 ->
        getItemQuantity (cartItems (run calls initialState)) k
        = counter k calls 0).
Proof.
  assert (Hrun : forall calls s k b,
             well_formed (cartItems s) ->
             0 <= b ->
             Forall (fun item => quantity item <= b) (cartItems s) ->
             b + Z.of_nat (length calls) <= two53 ->
             getItemQuantity (cartItems (run calls s)) k
             = counter k calls (getItemQuantity (cartItems s) k)).
  { induction calls as [|c calls IH]; intros s k b Hwf Hb Hall Hlen;
      [reflexivity|].
    cbn [length] in Hlen. rewrite Nat2Z.inj_succ in Hlen.
    unfold run, counter in *. cbn [fold_left].
    rewrite (IH (perform c s) k (b + 1)).
    - f_equal. apply (lookup_perform b); [exact (proj2 Hwf) | lia | exact Hall].
    - now apply well_formed_perform.
    - lia.
    - apply bounded_perform; [lia | exact Hall].
    - lia. }
  split; [exact Hrun|].
  intros calls k Hlen.
  apply (Hrun calls initialState k 0);
    [exact well_formed_nil | lia | constructor | lia].
Qed.

Lemma getItemQuantity_run_counter_witness :
  well_formed [ mkCartItem 5 2 ]
  /\ Forall (fun item => quantity item <= 2) [ mkCartItem 5 2 ]
  /\ getItemQuantity
       (cartItems
          (run [ DecreaseCartQuantity 5; DecreaseCartQuantity 5;
                 DecreaseCartQuantity 5; IncreaseCartQuantity 5 ]
             (mkProviderState true [ mkCartItem 5 2 ]))) 5
     = counter 5
         [ DecreaseCartQuantity 5; DecreaseCartQuantity 5;
           DecreaseCartQuantity 5; IncreaseCartQuantity 5 ]
         (getItemQuantity [ mkCartItem 5 2 ] 5)
  /\ getItemQuantity
       (cartItems
          (run [ IncreaseCartQuantity 5; IncreaseCartQuantity 5 ]
             initialState)) 5
     = counter 5 [ IncreaseCartQuantity 5; IncreaseCartQuantity 5 ] 0.
Proof.
  assert (H : well_formed [ mkCartItem 5 2 ]) by explicit_cart.
  assert (Hall : Forall (fun item => quantity item <= 2) [ mkCartItem 5 2 ])
    by (repeat constructor; simpl; lia).
  destruct getItemQuantity_run_counter as [Hrun Hinit].
  split; [exact H|]. split; [exact Hall|]. split.
  - apply (Hrun _ (mkProviderState true [ mkCartItem 5 2 ]) 5 2 H);
      [lia | exact Hall | vm_compute; discriminate].
  - apply Hinit. vm_compute. discriminate.
Defined.

(** * Beyond the specification: the two cells do not interact *)

Lemma run_cons (c : Call) (calls : list Call) (s : ProviderState) :
  run (c :: calls) s = run calls (perform c s).
Proof. reflexivity. Qed.

Lemma cartItems_run_ext (calls : list Call) (s s' : ProviderState) :
  cartItems s = cartItems s' ->
  cartItems (run calls s) = cartItems (run calls s').
Proof.
  revert s s'. induction calls as [|c calls IH]; intros s s' Heq;
    [exact Heq|].
  rewrite !run_cons. apply IH.
  destruct c; simpl; trivial; now rewrite Heq.
Qed.

Lemma isOpen_run_ext (calls : list Call) (s s' : ProviderState) :
  isOpen s = isOpen s' ->
  isOpen (run calls s) = isOpen (run calls s').
Proof.
  revert s s'. induction calls as [|c calls IH]; intros s s' Heq;
    [exact Heq|].
  rewrite !run_cons. apply IH.
  destruct c; simpl; trivial.
Qed.

(** X5. The visibility flag and the list of entries never influence each
    other: after any sequence of calls the list is the one obtained from
    the increase, decrease and remove calls alone, and the flag is the one
    obtained from the open and close calls alone.  In particular no cart
    update opens or closes the cart, and opening or closing it changes no
    entry. *)
Theorem cells_independent :
  forall (calls : list Call) (s : ProviderState),
    cartItems (run calls s) = cartItems (run (filter sets_items calls) s)
    /\ isOpen (run calls s) = isOpen (run (filter sets_flag calls) s).
Proof.
  induction calls as [|c calls IH]; intros s; [split; reflexivity|].
  rewrite run_cons. destruct (IH (perform c s)) as [IHitems IHflag].
  rewrite IHitems, IHflag.
  destruct c; simpl; rewrite ?run_cons; split; trivial;
    solve [ now apply cartItems_run_ext | now apply isOpen_run_ext ].
Qed.

(** * Beyond the specification: the total after an update *)

Lemma lookup_first (k : Z) (pre post : list CartItem) (item : CartItem) :
  absent k pre -> id item = k ->
  getItemQuantity (pre ++ item :: post) k = quantity item.
Proof.
  intros Hpre Hid. unfold getItemQuantity.
  rewrite (find_first k pre post item Hpre Hid). simpl.
  destruct (Z.eqb_spec (quantity item) 0); congruence.
Qed.

Lemma lookup_absent (k : Z) (items : list CartItem) :
  absent k items -> getItemQuantity items k = 0.
Proof.
  intros Habs. unfold getItemQuantity.
  apply find_absent in Habs. now rewrite Habs.
Qed.

Lemma magnitudes_bound_entries (items : list CartItem) (b : Z) :
  sum_magnitudes items <= b ->
  forall item, In item items -> - b <= quantity item <= b.
Proof.
  intros Hb item Hin. pose proof (magnitude_le_sum items item Hin). lia.
Qed.

(** X6. On a list with unique item ids whose quantities have magnitudes
    that sum to less than 2^53, the total quantity is the exact sum of
    the quantities, and increasing any item id raises it by exactly 1,
    whether the id had an entry or not. *)
Theorem cartQuantity_after_increase :
  forall (items : list CartItem) (k : Z),
    unique_ids items ->
    sum_magnitudes items < two53 ->
    cartQuantity items = Num (sum_quantities items)
    /\ cartQuantity (increaseItems k items) = Num (sum_quantities items + 1).
Proof.
  intros items k Huniq Hb.
  split; [apply cartQuantity_exact; lia|].
  destruct (sum_increaseItems k items Huniq) as [Hsum Hmag].
  - intros item Hin _.
    pose proof (magnitudes_bound_entries items _ (Z.lt_le_incl _ _ Hb)
                  item Hin).
    pose proof (magnitude_le_sum items item Hin). lia.
  - rewrite cartQuantity_exact by lia. now rewrite Hsum.
Qed.

Lemma cartQuantity_after_increase_witness :
  unique_ids [ mkCartItem 5 2; mkCartItem 7 1 ]
  /\ sum_magnitudes [ mkCartItem 5 2; mkCartItem 7 1 ] < two53
  /\ cartQuantity (increaseItems 7 [ mkCartItem 5 2; mkCartItem 7 1 ])
     = Num (sum_quantities [ mkCartItem 5 2; mkCartItem 7 1 ] + 1).
Proof.
  assert (H : unique_ids [ mkCartItem 5 2; mkCartItem 7 1 ])
    by explicit_cart.
  assert (Hb : sum_magnitudes [ mkCartItem 5 2; mkCartItem 7 1 ] < two53)
    by reflexivity.
  split; [exact H|]. split; [exact Hb|].
  exact (proj2 (cartQuantity_after_increase _ 7 H Hb)).
Defined.

(** X7. On a list with unique item ids whose quantities have magnitudes
    that sum to less than 2^53, decreasing an item id that has an entry
    lowers the total quantity by exactly 1 (whether the entry is deleted
    or rewritten), and decreasing an item id without entry leaves the
    total as it was. *)
Theorem cartQuantity_after_decrease :
  forall (items : list CartItem) (k : Z),
    unique_ids items ->
    sum_magnitudes items < two53 ->
    cartQuantity items = Num (sum_quantities items)
    /\ (~ absent k items ->
        cartQuantity (decreaseItems k items) = Num (sum_quantities items - 1))
    /\ (absent k items ->
        cartQuantity (decreaseItems k items) = Num (sum_quantities items)).
Proof.
  intros items k Huniq Hb.
  assert (Hexact : cartQuantity items = Num (sum_quantities items))
    by (apply cartQuantity_exact; lia).
  split; [exact Hexact|]. split.
  - intros Hpres.
    destruct (sum_decreaseItems k items Huniq Hpres) as [Hsum Hmag].
    + intros item Hin _. pose proof (magnitude_le_sum items item Hin). lia.
    + rewrite cartQuantity_exact by lia. now rewrite Hsum.
  - intros Habs. now rewrite decreaseItems_absent.
Qed.

Lemma cartQuantity_after_decrease_witness :
  unique_ids [ mkCartItem 5 2; mkCartItem 7 1 ]
  /\ sum_magnitudes [ mkCartItem 5 2; mkCartItem 7 1 ] < two53
  /\ (~ absent 7 [ mkCartItem 5 2; mkCartItem 7 1 ]
      /\ cartQuantity (decreaseItems 7 [ mkCartItem 5 2; mkCartItem 7 1 ])
         = Num (sum_quantities [ mkCartItem 5 2; mkCartItem 7 1 ] - 1))
  /\ (absent 9 [ mkCartItem 5 2; mkCartItem 7 1 ]
      /\ cartQuantity (decreaseItems 9 [ mkCartItem 5 2; mkCartItem 7 1 ])
         = Num (sum_quantities [ mkCartItem 5 2; mkCartItem 7 1 ])).
Proof.
  assert (H : unique_ids [ mkCartItem 5 2; mkCartItem 7 1 ])
    by explicit_cart.
  assert (Hb : sum_magnitudes [ mkCartItem 5 2; mkCartItem 7 1 ] < two53)
    by reflexivity.
  assert (Hpres : ~ absent 7 [ mkCartItem 5 2; mkCartItem 7 1 ])
    by (unfold absent; simpl; tauto).
  assert (Habs : absent 9 [ mkCartItem 5 2; mkCartItem 7 1 ])
    by explicit_cart.
  split; [exact H|]. split; [exact Hb|]. split; (split; [assumption|]).
  - exact (proj1 (proj2 (cartQuantity_after_decrease _ 7 H Hb)) Hpres).
  - exact (proj2 (proj2 (cartQuantity_after_decrease _ 9 H Hb)) Habs).
Defined.

(** X8. On a list with unique item ids whose quantities have magnitudes
    that sum to at most 2^53, removing an item id lowers the total
    quantity by exactly the value that [getItemQuantity] gave for that id
    (0 when it had no entry). *)
Theorem cartQuantity_after_remove :
  forall (items : list CartItem) (k : Z),
    unique_ids items ->
    sum_magnitudes items <= two53 ->
    cartQuantity items = Num (sum_quantities items)
    /\ cartQuantity (removeItems k items)
       = Num (sum_quantities items - getItemQuantity items k).
Proof.
  intros items k Huniq Hb.
  split; [now apply cartQuantity_exact|].
  rewrite cartQuantity_exact
    by (unfold removeItems;
        pose proof (sum_magnitudes_filter (is_other k) items); lia).
  f_equal. unfold removeItems.
  destruct (absent_dec k items) as [Habs|Hpres].
  - rewrite filter_other_absent, lookup_absent by assumption. lia.
  - destruct (present_split _ _ Hpres) as (pre & item & post & -> & Hpre & Hid).
    pose proof (unique_ids_split _ _ _ Huniq) as [_ Hpost].
    rewrite Hid in Hpost.
    rewrite filter_other_split, lookup_first by assumption.
    rewrite !sum_quantities_app. simpl. lia.
Qed.

Lemma cartQuantity_after_remove_witness :
  unique_ids [ mkCartItem 5 2; mkCartItem 7 1 ]
  /\ sum_magnitudes [ mkCartItem 5 2; mkCartItem 7 1 ] <= two53
  /\ cartQuantity (removeItems 5 [ mkCartItem 5 2; mkCartItem 7 1 ])
     = Num (sum_quantities [ mkCartItem 5 2; mkCartItem 7 1 ]
            - getItemQuantity [ mkCartItem 5 2; mkCartItem 7 1 ] 5).
Proof.
  assert (H : unique_ids [ mkCartItem 5 2; mkCartItem 7 1 ])
    by explicit_cart.
  assert (Hb : sum_magnitudes [ mkCartItem 5 2; mkCartItem 7 1 ] <= two53)
    by (vm_compute; discriminate).
  split; [exact H|]. split; [exact Hb|].
  exact (proj2 (cartQuantity_after_remove _ 5 H Hb)).
Defined.

(** * Beyond the specification: the total and the lookups agree *)

Lemma lookup_cons_other (item : CartItem) (rest : list CartItem) (k : Z) :
  id item <> k ->
  getItemQuantity (item :: rest) k = getItemQuantity rest k.
Proof.
  intros Hne. unfold getItemQuantity. simpl.
  apply is_item_false in Hne. now rewrite Hne.
Qed.

Lemma lookup_head (item : CartItem) (rest : list CartItem) :
  getItemQuantity (item :: rest) (id item) = quantity item.
Proof. exact (lookup_first (id item) [] rest item (absent_nil _) eq_refl). Qed.

Lemma sum_lookups_cons_other
  (item : CartItem) (rest : list CartItem) (ids : list Z) :
  ~ In (id item) ids ->
  sum_lookups (item :: rest) ids = sum_lookups rest ids.
Proof.
  induction ids as [|k ids IH]; simpl; intros Hnin; [reflexivity|].
  rewrite lookup_cons_other, IH by (intuition congruence). reflexivity.
Qed.

Lemma sum_lookups_unique (items : list CartItem) :
  unique_ids items ->
  sum_lookups items (map id items) = sum_quantities items.
Proof.
  intros Huniq. induction items as [|item rest IH]; [reflexivity|].
  unfold unique_ids in Huniq. simpl in Huniq.
  apply NoDup_cons_iff in Huniq as [Hnin Huniq].
  unfold sum_lookups. cbn [sum_quantities map fold_right].
  fold (sum_lookups (item :: rest) (map id rest)).
  rewrite sum_lookups_cons_other by assumption.
  now rewrite lookup_head, IH.
Qed.

(** X9. On a list with unique item ids whose quantities have magnitudes
    that sum to at most 2^53, the total quantity is the sum, over the
    item ids of the list, of what [getItemQuantity] returns for each: the
    badge total and the per-item lookups agree. *)
Theorem cartQuantity_sum_of_lookups :
  forall items : list CartItem,
    unique_ids items ->
    sum_magnitudes items <= two53 ->
    cartQuantity items = Num (sum_lookups items (map id items)).
Proof.
  intros items Huniq Hb.
  rewrite sum_lookups_unique by assumption.
  now apply cartQuantity_exact.
Qed.

Lemma cartQuantity_sum_of_lookups_witness :
  unique_ids [ mkCartItem 5 2; mkCartItem 7 1 ]
  /\ sum_magnitudes [ mkCartItem 5 2; mkCartItem 7 1 ] <= two53
  /\ cartQuantity [ mkCartItem 5 2; mkCartItem 7 1 ]
     = Num (sum_lookups [ mkCartItem 5 2; mkCartItem 7 1 ]
              (map id [ mkCartItem 5 2; mkCartItem 7 1 ])).
Proof.
  assert (H : unique_ids [ mkCartItem 5 2; mkCartItem 7 1 ])
    by explicit_cart.
  assert (Hb : sum_magnitudes [ mkCartItem 5 2; mkCartItem 7 1 ] <= two53)
    by (vm_compute; discriminate).
  split; [exact H|]. split; [exact Hb|].
  exact (cartQuantity_sum_of_lookups _ H Hb).
Defined.

(** * Beyond the specification: what positive quantities give *)

(** The running total of the [reduce] over quantities that are at least
    1: it is at least the number of entries added so far, up to 2^53. *)
Lemma fold_left_at_least (items : list CartItem) (acc : number) (n : Z) :
  positive_quantities items ->
  0 <= n -> at_least (Z.min n two53) acc ->
  at_least (Z.min (n + Z.of_nat (length items)) two53)
    (fold_left (fun a item => js_add (Num (quantity item)) a) items acc).
Proof.
  intros Hpos. revert acc n.
  induction Hpos as [|item rest Hq _ IH]; intros acc n Hn Hacc;
    cbn [fold_left length].
  - now rewrite Z.add_0_r.
  - rewrite Nat2Z.inj_succ.
    replace (n + Z.succ (Z.of_nat (length rest)))
      with ((n + 1) + Z.of_nat (length rest)) by lia.
    apply IH; [lia|].
    destruct acc as [a| | |]; simpl in Hacc; try contradiction;
      [|exact I].
    unfold js_add, to_number.
    destruct (Z.ltb_spec max_double (round64 (quantity item + a)));
      [exact I|].
    assert (Hr : Z.min (n + 1) two53 <= round64 (quantity item + a)).
    { destruct (Z.le_gt_cases (quantity item + a) two53) as [Hs|Hl].
      - rewrite round64_exact by (unfold two53 in *; lia). lia.
      - pose proof (round64_large (quantity item + a) ltac:(lia)). lia. }
    pose proof max_double_pos.
    destruct (Z.ltb_spec (round64 (quantity item + a)) (- max_double));
      [unfold two53 in *; lia | exact Hr].
Qed.

(** X10. On a list whose quantities are all at least 1, the total
    quantity is at least the number of entries (for a list of up to 2^53
    entries, and at least 2^53 for a longer one), so the total is 0
    exactly when the cart has no entry. *)
Theorem cartQuantity_zero_iff_empty :
  forall items : list CartItem,
    positive_quantities items ->
    at_least (Z.min (Z.of_nat (length items)) two53) (cartQuantity items)
    /\ (cartQuantity items = Num 0 <-> items = []).
Proof.
  intros items Hpos.
  assert (Hlow : at_least (Z.min (Z.of_nat (length items)) two53)
                   (cartQuantity items)).
  { apply (fold_left_at_least items (Num 0) 0 Hpos); [lia|].
    simpl. unfold two53. lia. }
  split; [exact Hlow|]. split.
  - intros Hzero. destruct items as [|item rest]; [reflexivity|].
    rewrite Hzero in Hlow. cbn [length at_least] in Hlow.
    rewrite Nat2Z.inj_succ in Hlow. unfold two53 in Hlow. lia.
  - now intros ->.
Qed.

Lemma cartQuantity_zero_iff_empty_witness :
  positive_quantities [ mkCartItem 5 2; mkCartItem 7 1 ]
  /\ at_least
       (Z.min (Z.of_nat (length [ mkCartItem 5 2; mkCartItem 7 1 ])) two53)
       (cartQuantity [ mkCartItem 5 2; mkCartItem 7 1 ]).
Proof.
  assert (H : positive_quantities [ mkCartItem 5 2; mkCartItem 7 1 ])
    by explicit_cart.
  split; [exact H | exact (proj1 (cartQuantity_zero_iff_empty _ H))].
Defined.

(** X11. On a list whose quantities are all at least 1, the lookup of an
    item id is 0 exactly when the list has no entry for it, and is at
    least 1 otherwise: the lookup tells presence, with or without
    duplicate ids. *)
Theorem getItemQuantity_zero_iff_absent :
  forall (items : list CartItem) (k : Z),
    positive_quantities items ->
    (getItemQuantity items k = 0 <-> absent k items)
    /\ (~ absent k items -> 1 <= getItemQuantity items k).
Proof.
  intros items k Hpos.
  assert (Hpres : ~ absent k items -> 1 <= getItemQuantity items k).
  { intros Hp.
    destruct (present_split _ _ Hp) as (pre & item & post & -> & Hpre & Hid).
    rewrite lookup_first by assumption.
    unfold positive_quantities in Hpos. rewrite Forall_forall in Hpos.
    apply Hpos, in_elt. }
  split; [|exact Hpres]. split.
  - intros Hzero. destruct (absent_dec k items) as [Habs|Hp]; [exact Habs|].
    specialize (Hpres Hp). lia.
  - apply lookup_absent.
Qed.

Lemma getItemQuantity_zero_iff_absent_witness :
  positive_quantities [ mkCartItem 5 2; mkCartItem 5 1 ]
  /\ ~ absent 5 [ mkCartItem 5 2; mkCartItem 5 1 ]
  /\ 1 <= getItemQuantity [ mkCartItem 5 2; mkCartItem 5 1 ] 5.
Proof.
  assert (H : positive_quantities [ mkCartItem 5 2; mkCartItem 5 1 ])
    by explicit_cart.
  assert (Hpres : ~ absent 5 [ mkCartItem 5 2; mkCartItem 5 1 ])
    by (unfold absent; simpl; tauto).
  split; [exact H|]. split; [exact Hpres|].
  exact (proj2 (getItemQuantity_zero_iff_absent _ 5 H) Hpres).
Defined.

(** * Beyond the specification: updates for different item ids *)

Lemma filter_other_comm (j k : Z) (items : list CartItem) :
  filter (is_other j) (filter (is_other k) items)
  = filter (is_other k) (filter (is_other j) items).
Proof.
  induction items as [|x rest IH]; simpl; [reflexivity|].
  destruct (is_other k x) eqn:Hk, (is_other j x) eqn:Hj; simpl;
    rewrite ?Hk, ?Hj, IH; reflexivity.
Qed.

Lemma filter_other_map (j : Z) (f : CartItem -> CartItem)
  (items : list CartItem) :
  (forall item, id (f item) = id item) ->
  filter (is_other j) (map f items) = map f (filter (is_other j) items).
Proof.
  intros Hid. rewrite filter_map_swap. f_equal.
  apply filter_ext. intros x. unfold is_other. now rewrite Hid.
Qed.

Lemma bump_drop_comm (j k : Z) (x : CartItem) :
  j <> k -> bump j (drop k x) = drop k (bump j x).
Proof.
  intros Hne. destruct x as [i q]. unfold bump, drop. simpl.
  destruct (Z.eqb_spec i k), (Z.eqb_spec i j); simpl;
    try congruence;
    repeat match goal with
           | |- context [?a =? ?b] => destruct (Z.eqb_spec a b)
           end; congruence.
Qed.

Lemma bump_bump_comm (j k : Z) (x : CartItem) :
  j <> k -> bump j (bump k x) = bump k (bump j x).
Proof.
  intros Hne. destruct x as [i q]. unfold bump. simpl.
  destruct (Z.eqb_spec i k), (Z.eqb_spec i j); simpl;
    try congruence;
    repeat match goal with
           | |- context [?a =? ?b] => destruct (Z.eqb_spec a b)
           end; congruence.
Qed.

Lemma drop_drop_comm (j k : Z) (x : CartItem) :
  j <> k -> drop j (drop k x) = drop k (drop j x).
Proof.
  intros Hne. destruct x as [i q]. unfold drop. simpl.
  destruct (Z.eqb_spec i k), (Z.eqb_spec i j); simpl;
    try congruence;
    repeat match goal with
           | |- context [?a =? ?b] => destruct (Z.eqb_spec a b)
           end; congruence.
Qed.

Lemma map_comm (f g : CartItem -> CartItem) (items : list CartItem) :
  (forall x, f (g x) = g (f x)) ->
  map f (map g items) = map g (map f items).
Proof. intros H. rewrite !map_map. apply map_ext. exact H. Qed.

Lemma increaseItems_eq (k : Z) (items : list CartItem) :
  increaseItems k items
  = if is_nullish (find (is_item k) items)
    then items ++ [ {| id := k; quantity := 1 |} ]
    else map (bump k) items.
Proof. reflexivity. Qed.

Lemma decreaseItems_eq (k : Z) (items : list CartItem) :
  decreaseItems k items
  = if is_one (quantity_of (find (is_item k) items))
    then filter (is_other k) items
    else map (drop k) items.
Proof. reflexivity. Qed.

Lemma is_other_new (j k q : Z) :
  j <> k -> is_other j {| id := k; quantity := q |} = true.
Proof.
  intros Hne. unfold is_other. simpl.
  destruct (Z.eqb_spec k j); [congruence | reflexivity].
Qed.

Section DistinctIds.

Variables j k : Z.
Hypothesis Hjk : j <> k.
Variable items : list CartItem.

Let Hkj : k <> j.
Proof. congruence. Qed.

Lemma remove_increase_comm :
  removeItems j (increaseItems k items)
  = increaseItems k (removeItems j items).
Proof.
  rewrite (increaseItems_eq k (removeItems j items)).
  rewrite find_removeItems_other by assumption.
  unfold increaseItems, removeItems. destruct (is_nullish _).
  - rewrite filter_app. simpl. now rewrite is_other_new.
  - apply filter_other_map, bump_id.
Qed.

Lemma remove_decrease_comm :
  removeItems j (decreaseItems k items)
  = decreaseItems k (removeItems j items).
Proof.
  rewrite (decreaseItems_eq k (removeItems j items)).
  rewrite find_removeItems_other by assumption.
  unfold decreaseItems, removeItems. destruct (is_one _).
  - apply filter_other_comm.
  - apply filter_other_map, drop_id.
Qed.

Lemma decrease_decrease_comm :
  decreaseItems j (decreaseItems k items)
  = decreaseItems k (decreaseItems j items).
Proof.
  rewrite (decreaseItems_eq j (decreaseItems k items)).
  rewrite (decreaseItems_eq k (decreaseItems j items)).
  rewrite !find_decreaseItems_other by assumption.
  unfold decreaseItems.
  destruct (is_one (quantity_of (find (is_item j) items))),
    (is_one (quantity_of (find (is_item k) items))).
  - apply filter_other_comm.
  - apply filter_other_map, drop_id.
  - symmetry. apply filter_other_map, drop_id.
  - apply map_comm. intros x. now apply drop_drop_comm.
Qed.

Lemma decrease_increase_comm :
  decreaseItems j (increaseItems k items)
  = increaseItems k (decreaseItems j items).
Proof.
  rewrite (decreaseItems_eq j (increaseItems k items)).
  rewrite (increaseItems_eq k (decreaseItems j items)).
  rewrite find_decreaseItems_other, find_increaseItems_other by assumption.
  unfold decreaseItems, increaseItems.
  destruct (is_one (quantity_of (find (is_item j) items))),
    (is_nullish (find (is_item k) items)).
  - rewrite filter_app. simpl. now rewrite is_other_new.
  - apply filter_other_map, bump_id.
  - rewrite map_app. simpl. rewrite drop_other; [reflexivity | exact Hkj].
  - apply map_comm. intros x. symmetry. now apply bump_drop_comm.
Qed.

Lemma increase_increase_present :
  ~ absent j items \/ ~ absent k items ->
  increaseItems j (increaseItems k items)
  = increaseItems k (increaseItems j items).
Proof.
  intros Hsome.
  rewrite (increaseItems_eq j (increaseItems k items)).
  rewrite (increaseItems_eq k (increaseItems j items)).
  rewrite !find_increaseItems_other by assumption.
  unfold increaseItems.
  destruct (find (is_item j) items) as [xj|] eqn:Hfj,
    (find (is_item k) items) as [xk|] eqn:Hfk; simpl.
  - apply map_comm. intros x. now apply bump_bump_comm.
  - rewrite map_app. simpl. rewrite bump_other; [reflexivity | exact Hkj].
  - rewrite map_app. simpl. rewrite bump_other; [reflexivity | exact Hjk].
  - apply find_absent in Hfj, Hfk. tauto.
Qed.

Lemma increase_increase_absent :
  absent j items -> absent k items ->
  increaseItems j (increaseItems k items)
  = items ++ [ {| id := k; quantity := 1 |}; {| id := j; quantity := 1 |} ].
Proof.
  intros Hj Hk. rewrite (increaseItems_eq j (increaseItems k items)).
  rewrite find_increaseItems_other by assumption.
  apply find_absent in Hj. rewrite Hj. simpl.
  rewrite increaseItems_absent by assumption.
  now rewrite <- app_assoc.
Qed.

End DistinctIds.

(** X12. On every list of entries, updates for two different item ids
    can be made in either order with the same resulting list, for every
    pair of updates in which at least one is a decrease or a removal. *)
Theorem updates_commute :
  forall (items : list CartItem) (j k : Z),
    j <> k ->
    removeItems j (removeItems k items) = removeItems k (removeItems j items)
    /\ removeItems j (increaseItems k items)
       = increaseItems k (removeItems j items)
    /\ removeItems j (decreaseItems k items)
       = decreaseItems k (removeItems j items)
    /\ decreaseItems j (decreaseItems k items)
       = decreaseItems k (decreaseItems j items)
    /\ decreaseItems j (increaseItems k items)
       = increaseItems k (decreaseItems j items).
Proof.
  intros items j k Hjk. repeat split.
  - apply filter_other_comm.
  - now apply remove_increase_comm.
  - now apply remove_decrease_comm.
  - now apply decrease_decrease_comm.
  - now apply decrease_increase_comm.
Qed.

Lemma updates_commute_witness :
  decreaseItems 5 (increaseItems 9 [ mkCartItem 5 1; mkCartItem 7 2 ])
  = increaseItems 9 (decreaseItems 5 [ mkCartItem 5 1; mkCartItem 7 2 ]).
Proof.
  apply (updates_commute [ mkCartItem 5 1; mkCartItem 7 2 ] 5 9).
  lia.
Defined.

(** X13. Two increases for different item ids give the same list in
    either order as soon as one of the ids already has an entry.  When
    neither has one, both entries are appended in the order of the calls:
    the two orders then give lists that hold the same entries and differ
    only in the order of the last two. *)
Theorem increases_commute :
  forall (items : list CartItem) (j k : Z),
    j <> k ->
    (~ absent j items \/ ~ absent k items ->
     increaseItems j (increaseItems k items)
     = increaseItems k (increaseItems j items))
    /\ (absent j items -> absent k items ->
        increaseItems j (increaseItems k items)
        = items ++ [ {| id := k; quantity := 1 |};
                     {| id := j; quantity := 1 |} ]
        /\ increaseItems k (increaseItems j items)
           = items ++ [ {| id := j; quantity := 1 |};
                        {| id := k; quantity := 1 |} ]).
Proof.
  intros items j k Hjk. split.
  - now apply increase_increase_present.
  - intros Hj Hk. split; apply increase_increase_absent; congruence.
Qed.

Lemma increases_commute_witness :
  (~ absent 5 [ mkCartItem 5 1 ] \/ ~ absent 9 [ mkCartItem 5 1 ])
  /\ increaseItems 5 (increaseItems 9 [ mkCartItem 5 1 ])
     = increaseItems 9 (increaseItems 5 [ mkCartItem 5 1 ])
  /\ absent 7 [ mkCartItem 5 1 ] /\ absent 9 [ mkCartItem 5 1 ]
  /\ increaseItems 7 (increaseItems 9 [ mkCartItem 5 1 ])
     = [ mkCartItem 5 1 ] ++ [ mkCartItem 9 1; mkCartItem 7 1 ].
Proof.
  assert (Hpres : ~ absent 5 [ mkCartItem 5 1 ] \/ ~ absent 9 [ mkCartItem 5 1 ])
    by (left; unfold absent; simpl; tauto).
  assert (H7 : absent 7 [ mkCartItem 5 1 ]) by explicit_cart.
  assert (H9 : absent 9 [ mkCartItem 5 1 ]) by explicit_cart.
  assert (Hne59 : 5 <> 9) by lia.
  assert (Hne79 : 7 <> 9) by lia.
  split; [exact Hpres|].
  split; [exact (proj1 (increases_commute _ 5 9 Hne59) Hpres)|].
  split; [exact H7|]. split; [exact H9|].
  exact (proj1 (proj2 (increases_commute _ 7 9 Hne79) H7 H9)).
Defined.

(** * Beyond the specification: decreasing down to removal *)

Lemma decrease_iter_above
  (k : Z) (pre post : list CartItem) (q : Z) (n : nat) :
  absent k pre -> absent k post -> Z.of_nat n < q -> q <= two53 ->
  Nat.iter n (decreaseItems k) (pre ++ {| id := k; quantity := q |} :: post)
  = pre ++ {| id := k; quantity := q - Z.of_nat n |} :: post.
Proof.
  intros Hpre Hpost. induction n as [|n IH]; intros Hlt Hle.
  - simpl. do 3 f_equal. lia.
  - rewrite Nat2Z.inj_succ in Hlt. simpl Nat.iter. rewrite IH by lia.
    rewrite decreaseItems_first_not_one by (trivial; simpl; lia).
    rewrite map_drop_split by trivial. simpl.
    rewrite round64_exact by (unfold two53 in *; lia).
    do 3 f_equal. lia.
Qed.

(** X14. On a list with unique item ids and positive quantities,
    decreasing an item whose quantity is at most 2^53 as many times as
    its quantity gives exactly the list that removing it gives; with
    fewer decreases the entry is still there, at its place, with what is
    left of its quantity. *)
Theorem decrease_down_to_removal :
  forall (items : list CartItem) (item : CartItem),
    well_formed items -> In item items -> quantity item <= two53 ->
    Nat.iter (Z.to_nat (quantity item)) (decreaseItems (id item)) items
    = removeItems (id item) items
    /\ (forall n : nat,
          Z.of_nat n < quantity item ->
          getItemQuantity (Nat.iter n (decreaseItems (id item)) items)
            (id item)
          = quantity item - Z.of_nat n).
Proof.
  intros items item [Huniq Hpos] Hin Hle.
  unfold positive_quantities in Hpos. rewrite Forall_forall in Hpos.
  pose proof (Hpos item Hin) as Hq.
  destruct (in_split _ _ Hin) as (pre & post & ->).
  pose proof (unique_ids_split _ _ _ Huniq) as [Hpre Hpost].
  destruct item as [k q]. simpl in *. split.
  - destruct (Z.to_nat q) as [|m] eqn:Hm; [lia|].
    simpl Nat.iter. rewrite decrease_iter_above by (trivial; lia).
    rewrite decreaseItems_first_one by (trivial; simpl; lia).
    unfold removeItems. now rewrite !filter_other_split by trivial.
  - intros n Hlt. rewrite decrease_iter_above by trivial.
    rewrite lookup_first by trivial. reflexivity.
Qed.

Lemma decrease_down_to_removal_witness :
  well_formed [ mkCartItem 5 3; mkCartItem 7 1 ]
  /\ In (mkCartItem 5 3) [ mkCartItem 5 3; mkCartItem 7 1 ]
  /\ quantity (mkCartItem 5 3) <= two53
  /\ Nat.iter (Z.to_nat (quantity (mkCartItem 5 3)))
       (decreaseItems (id (mkCartItem 5 3)))
       [ mkCartItem 5 3; mkCartItem 7 1 ]
     = removeItems (id (mkCartItem 5 3)) [ mkCartItem 5 3; mkCartItem 7 1 ]
  /\ getItemQuantity
       (Nat.iter 2 (decreaseItems (id (mkCartItem 5 3)))
          [ mkCartItem 5 3; mkCartItem 7 1 ])
       (id (mkCartItem 5 3))
     = quantity (mkCartItem 5 3) - Z.of_nat 2.
Proof.
  assert (H : well_formed [ mkCartItem 5 3; mkCartItem 7 1 ])
    by explicit_cart.
  assert (Hin : In (mkCartItem 5 3) [ mkCartItem 5 3; mkCartItem 7 1 ])
    by (simpl; left; reflexivity).
  assert (Hle : quantity (mkCartItem 5 3) <= two53)
    by (vm_compute; discriminate).
  split; [exact H|]. split; [exact Hin|]. split; [exact Hle|]. split.
  - exact (proj1 (decrease_down_to_removal _ _ H Hin Hle)).
  - apply (proj2 (decrease_down_to_removal _ _ H Hin Hle) 2%nat).
    simpl. lia.
Defined.

(** * Beyond the specification: a stored quantity below 1 *)

(** X15. The decrease deletes an entry only when the quantity that the
    lookup finds is exactly 1; there is no floor below that.  On any list
    whose first entry for [k] has a quantity of 0 or less (a list that
    the operations never produce from the empty cart), decreasing [k]
    deletes nothing and keeps the length of the list; when that quantity
    is above -2^53 it is lowered by 1, so the lookup of [k] becomes the
    negative number one below it. *)
Theorem decrease_below_one :
  forall (pre post : list CartItem) (item : CartItem) (k : Z),
    absent k pre -> id item = k -> quantity item <= 0 ->
    decreaseItems k (pre ++ item :: post) = map (drop k) (pre ++ item :: post)
    /\ length (decreaseItems k (pre ++ item :: post))
       = length (pre ++ item :: post)
    /\ (- two53 < quantity item ->
        getItemQuantity (decreaseItems k (pre ++ item :: post)) k
        = quantity item - 1).
Proof.
  intros pre post item k Hpre Hid Hq.
  assert (Heq : decreaseItems k (pre ++ item :: post)
                = map (drop k) (pre ++ item :: post))
    by (apply decreaseItems_first_not_one; trivial; lia).
  rewrite Heq. split; [reflexivity|]. split; [apply length_map|].
  intros Hlow. rewrite map_app. simpl. rewrite map_drop_absent by assumption.
  rewrite lookup_first by (trivial; now rewrite drop_id).
  subst k. rewrite drop_item. simpl.
  apply round64_exact. unfold two53 in *. lia.
Qed.

Lemma decrease_below_one_witness :
  absent 5 [ mkCartItem 7 1 ]
  /\ - two53 < quantity (mkCartItem 5 0)
  /\ getItemQuantity
       (decreaseItems 5 ([ mkCartItem 7 1 ] ++ mkCartItem 5 0 :: [])) 5
     = quantity (mkCartItem 5 0) - 1.
Proof.
  assert (Habs : absent 5 [ mkCartItem 7 1 ]) by explicit_cart.
  assert (Hlow : - two53 < quantity (mkCartItem 5 0)) by reflexivity.
  assert (Hq : quantity (mkCartItem 5 0) <= 0) by (simpl; lia).
  split; [exact Habs|]. split; [exact Hlow|].
  exact (proj2 (proj2 (decrease_below_one [ mkCartItem 7 1 ] []
                         (mkCartItem 5 0) 5 Habs eq_refl Hq)) Hlow).
Defined.

End ShoppingCartContext.
